(** * The lat-lon graticule of WebWorldWind: tiles, selection and labels

    A shallow embedding of
    - [GridElement], [GraticuleGridTile] and [LatLonGraticuleGridTile]
      (grid elements, the quadtree node and its lat-lon selection policy),
    - [GraticuleSupport], [GraticuleLayer] and [LatLonGraticuleLayer]
      (the renderable lists, label bookkeeping and the top-level grid),
    followed by the properties established about them.

    JavaScript numbers are IEEE 754 binary64 values; they are modelled by
    Rocq's primitive [float], whose operations are the same ones.  Strings
    used as tags stay strings.  [null]/[undefined] object fields are
    [option]s.  A call either returns, throws, or is cut off by the fuel
    that bounds loops and recursion. *)

From Stdlib Require Import Floats ZArith List Bool String Lia.
From Stdlib Require Import Uint63.
Import ListNotations.

Set Warnings "-inexact-float,-register-all".

Local Open Scope string_scope.
Local Open Scope list_scope.
Local Open Scope float_scope.

(* ------------------------------------------------------------------ *)
(** ** Numbers *)

(** A loop counter or a small integer field used in arithmetic. *)
Definition nat2f (n : nat) : float := PrimFloat.of_uint63 (Uint63.of_Z (Z.of_nat n)).

(** [undefined] where a number is expected: [ToNumber(undefined)] is NaN. *)
Definition undefinedAsNumber : float := nan.

(* ------------------------------------------------------------------ *)
(** ** Outcomes of a call *)

(** [Throw] is an error raised by a statement of the code.  [OutOfFuel]
    stands for a call that does not end by itself within the given fuel: a
    loop that goes on, or a recursion that the engine would in the end stop
    with a stack overflow. *)

Inductive JsError : Type :=
| ReferenceError (name : string)
| TypeError (what : string).

Inductive Outcome (A : Type) : Type :=
| Ok (a : A)
| Throw (e : JsError)
| OutOfFuel.

Arguments Ok {A} a.
Arguments Throw {A} e.
Arguments OutOfFuel {A}.

Definition bind {A B : Type} (c : Outcome A) (k : A -> Outcome B) : Outcome B :=
  match c with
  | Ok a => k a
  | Throw e => Throw e
  | OutOfFuel => OutOfFuel
  end.

Declare Scope outcome_scope.
Delimit Scope outcome_scope with outcome.
Notation "x <- c ;; k" := (bind c (fun x => k))
  (at level 100, c at next level, right associativity) : outcome_scope.
Notation "' p <- c ;; k" := (bind c (fun p => k))
  (at level 100, p pattern, c at next level, right associativity) : outcome_scope.
Local Open Scope outcome_scope.

(** A [for ... of] loop whose body may throw: the bodies run in order and the
    first failure ends the loop. *)
Fixpoint forOf {A B : Type} (body : A -> Outcome B) (l : list A) : Outcome (list B) :=
  match l with
  | [] => Ok []
  | a :: l' => b <- body a ;; bs <- forOf body l' ;; Ok (b :: bs)
  end.

(* ------------------------------------------------------------------ *)
(** ** Geometry consumed from the rest of the library *)

(** Modelled from the spec: the class [Sector] (geom/Sector) is not part of
    the sources at hand.  A region is a min/max latitude/longitude rectangle
    with derived [deltaLat = maxLat - minLat] and [deltaLon = maxLon - minLon]. *)
Record Sector : Type := mkSector {
  minLatitude : float;
  maxLatitude : float;
  minLongitude : float;
  maxLongitude : float
}.

Definition deltaLatitude (s : Sector) : float := maxLatitude s - minLatitude s.
Definition deltaLongitude (s : Sector) : float := maxLongitude s - minLongitude s.

Record Position : Type := mkPosition {
  latitude : float;
  longitude : float;
  altitude : float
}.

Record Vec3 : Type := mkVec3 { vx : float; vy : float; vz : float }.

(** What the graticule code uses of the surrounding library without it
    being in the sources: the overlap test of two sectors, the
    degrees-to-radians factor of [Angle], the constants [WorldWind.LINEAR]
    and [WorldWind.CLAMP_TO_GROUND], and the three angle formatters. *)
Class WorldWind : Type := {
  overlaps : Sector -> Sector -> bool;
  DEGREES_TO_RADIANS : float;
  LINEAR : string;
  CLAMP_TO_GROUND : string;
  toDecimalDegreesString : float -> nat -> string;
  doDMSString : float -> string;
  toDMString : float -> string
}.

(** The shapes handed to the renderer. *)
Record Path : Type := mkPath {
  positions : list Position;
  altitudeMode : string;
  followTerrain : bool;
  pathType : string
}.

Record GeographicText : Type := mkGeographicText {
  text : string;
  textPosition : Vec3
}.

Inductive Renderable : Type :=
| RPath (p : Path)
| RText (t : GeographicText).

Record Globe : Type := mkGlobe {
  projectionLimits : option Sector
}.

(** The draw context, reduced to what the graticule code reads from it.
    [dcProjectionLimits] is the property [dc.projectionLimits] (not the
    globe's); [intersectsFrustum s] is the frustum test on the bounding box
    built for sector [s]; [distanceToCentroid s] is the distance from the eye
    point to the surface point under the centroid of [s]. *)
Record DrawContext : Type := mkDrawContext {
  globe : Globe;
  dcProjectionLimits : option Sector;
  intersectsFrustum : Sector -> bool;
  distanceToCentroid : Sector -> float;
  pixelSizeAtDistance : float -> float;
  eyePosition : Position
}.

(* ------------------------------------------------------------------ *)
(** ** GridElement *)

Module GridElement.

Definition typeLine := "GridElement_Line".
Definition typeLineNorth := "GridElement_LineNorth".
Definition typeLineSouth := "GridElement_LineSouth".
Definition typeLineWest := "GridElement_LineWest".
Definition typeLineEast := "GridElement_LineEast".
Definition typeLineNorthing := "GridElement_LineNorthing".
Definition typeLineEasting := "GridElement_LineEasting".
Definition typeGridZoneLabel := "GridElement_GridZoneLabel".
Definition typeLongitudeLabel := "GridElement_LongitudeLabel".
Definition typeLatitudeLabel := "GridElement_LatitudeLabel".

(** [value] is assigned right after construction by every creator. *)
Record t : Type := mk {
  sector : Sector;
  renderable : Renderable;
  type : string;
  value : float
}.

Section Methods.
Context {W : WorldWind}.

(** [vs = vs || dc.globe.projectionLimits; if (!vs) return false;
    return this.sector.overlaps(vs);] *)
Definition isInView (this : t) (dc : DrawContext) (vs : option Sector) : bool :=
  let vs' := match vs with
             | Some v => Some v
             | None => projectionLimits (globe dc)
             end in
  match vs' with
  | None => false
  | Some v => overlaps (sector this) v
  end.

End Methods.

Definition isLabel (this : t) : bool :=
  if String.eqb (type this) typeGridZoneLabel then true
  else if String.eqb (type this) typeLongitudeLabel then true
  else if String.eqb (type this) typeLatitudeLabel then true
  else false.

Definition isLine (this : t) : bool :=
  if String.eqb (type this) typeLine then true
  else if String.eqb (type this) typeLineNorth then true
  else if String.eqb (type this) typeLineSouth then true
  else if String.eqb (type this) typeLineWest then true
  else if String.eqb (type this) typeLineEast then true
  else if String.eqb (type this) typeLineNorthing then true
  else if String.eqb (type this) typeLineEasting then true
  else false.

End GridElement.

(* ------------------------------------------------------------------ *)
(** ** GraticuleGridTile *)

Module GraticuleGridTile.

(** [gridElements] and [subTiles] start as [null] and are filled on demand. *)
Inductive t : Type := mk {
  sector : Sector;
  divisions : nat;
  level : nat;
  gridElements : option (list GridElement.t);
  subTiles : option (list t)
}.

(** The constructor: [new GraticuleGridTile(sector, divisions, level)]. *)
Definition new (sector : Sector) (divisions level : nat) : t :=
  mk sector divisions level None None.

Definition set_gridElements (this : t) (ges : option (list GridElement.t)) : t :=
  mk (sector this) (divisions this) (level this) ges (subTiles this).

Definition set_subTiles (this : t) (gts : option (list t)) : t :=
  mk (sector this) (divisions this) (level this) (gridElements this) gts.

Section Methods.
Context {W : WorldWind}.

(** [if (!extent.intersectsFrustum(...)) return false;
    if (dc.projectionLimits && !this.sector.overlaps(vs)) return false;
    return true;]
    No binding of [vs] is in scope and the module is strict, so evaluating
    [vs] raises a ReferenceError; that happens exactly when
    [dc.projectionLimits] is set. *)
Definition isInView (this : t) (dc : DrawContext) : Outcome bool :=
  if negb (intersectsFrustum dc (sector this)) then Ok false
  else match dcProjectionLimits dc with
       | Some _ => Throw (ReferenceError "vs")
       | None => Ok true
       end.

Definition getSizeInPixels (this : t) (dc : DrawContext) : float :=
  let distance := distanceToCentroid dc (sector this) in
  let tileSizeMeter := deltaLatitude (sector this) * DEGREES_TO_RADIANS in
  tileSizeMeter / pixelSizeAtDistance dc distance.

(** [this.gridElements = null; ... this.subTiles = null;]  The sub-tiles
    cleared by the loop are dropped with the assignment that follows it. *)
Definition clearRenderables (this : t) : t :=
  mk (sector this) (divisions this) (level this) None None.

Definition createLineRenderable (positions : list Position) (pathType : string) : Path :=
  mkPath positions CLAMP_TO_GROUND true pathType.

(** The loop [while (longitude < this.sector.maxLongitude - step / 2)] of
    [createRenderables], entered with the current [longitude]. *)
Fixpoint meridians (fuel : nat) (this : t) (step longitude : float)
  : Outcome (list GridElement.t) :=
  if longitude <? maxLongitude (sector this) - step / 2 then
    match fuel with
    | O => OutOfFuel
    | S fuel' =>
      let positions :=
        [ mkPosition (minLatitude (sector this)) longitude 0;
          mkPosition (maxLatitude (sector this)) longitude 0 ] in
      let line := createLineRenderable positions LINEAR in
      let sector' := mkSector (minLatitude (sector this)) (maxLatitude (sector this))
                              longitude longitude in
      let lineType := if PrimFloat.eqb longitude (minLongitude (sector this))
                      then GridElement.typeLineWest else GridElement.typeLine in
      let element := GridElement.mk sector' (RPath line) lineType longitude in
      rest <- meridians fuel' this step (longitude + step) ;;
      Ok (element :: rest)
    end
  else Ok [].

(** The loop [while (latitude < this.sector.maxLatitude - step / 2)]. *)
Fixpoint parallels (fuel : nat) (this : t) (step latitude : float)
  : Outcome (list GridElement.t) :=
  if latitude <? maxLatitude (sector this) - step / 2 then
    match fuel with
    | O => OutOfFuel
    | S fuel' =>
      let positions :=
        [ mkPosition latitude (minLongitude (sector this)) 0;
          mkPosition latitude (maxLongitude (sector this)) 0 ] in
      let line := createLineRenderable positions LINEAR in
      let sector' := mkSector latitude latitude
                              (minLongitude (sector this)) (maxLongitude (sector this)) in
      let lineType := if PrimFloat.eqb latitude (minLatitude (sector this))
                      then GridElement.typeLineSouth else GridElement.typeLine in
      let element := GridElement.mk sector' (RPath line) lineType latitude in
      rest <- parallels fuel' this step (latitude + step) ;;
      Ok (element :: rest)
    end
  else Ok [].

(** The parallel at the top of the graticule, drawn when
    [this.sector.maxLatitude == 90]. *)
Definition northLine (this : t) : list GridElement.t :=
  if PrimFloat.eqb (maxLatitude (sector this)) 90 then
    let positions :=
      [ mkPosition 90 (minLongitude (sector this)) 0;
        mkPosition 90 (maxLongitude (sector this)) 0 ] in
    let line := createLineRenderable positions LINEAR in
    let sector' := mkSector 90 90 (minLongitude (sector this)) (maxLongitude (sector this)) in
    [ GridElement.mk sector' (RPath line) GridElement.typeLineNorth 90 ]
  else [].

Definition createRenderables (fuel : nat) (this : t) : Outcome t :=
  let step := deltaLatitude (sector this) / nat2f (divisions this) in
  let longitude := minLongitude (sector this) + (if Nat.eqb (level this) 0 then 0 else step) in
  ms <- meridians fuel this step longitude ;;
  let latitude := minLatitude (sector this) + (if Nat.eqb (level this) 0 then 0 else step) in
  ps <- parallels fuel this step latitude ;;
  Ok (set_gridElements this (Some (ms ++ ps ++ northLine this))).

Definition computeLabelOffset (this : t) (dc : DrawContext) : Position :=
  eyePosition dc.

(** The two nested [for] loops over [row] and [col], both running from 0 up
    to [this.divisions], storing at [sectors[idx++]]. *)
Definition subdivideSector (this : t) : list Sector :=
  let dLat := deltaLatitude (sector this) in
  let dLon := deltaLongitude (sector this) in
  let minLat := minLatitude (sector this) in
  let minLon := minLongitude (sector this) in
  flat_map (fun row =>
    map (fun col =>
      mkSector (minLat + dLat * nat2f row)
               (minLat + dLat * nat2f row + dLat)
               (minLon + dLon * nat2f col)
               (minLon + dLon * nat2f col + dLon))
      (seq 0 (divisions this)))
    (seq 0 (divisions this)).

End Methods.

End GraticuleGridTile.

(* ------------------------------------------------------------------ *)
(** ** LatLonGraticuleGridTile *)

(** One entry of [createdLabels]:
    [[value, labelType, graticuleLevel, deltaLatitude, labelOffset]]. *)
Record CreatedLabel : Type := mkCreatedLabel {
  clValue : float;
  clLabelType : string;
  clGraticuleLevel : option string;
  clDeltaLatitude : float;
  clLabelOffset : Position
}.

(** What [selectRenderables] returns:
    [[selectedPathRenderables, selectedTextRenderables, createdLabels]];
    a renderable comes with its graticule level, which is [undefined] when
    [getLevel] found none. *)
Record Selection : Type := mkSelection {
  selectedPathRenderables : list (Renderable * option string);
  selectedTextRenderables : list (Renderable * option string);
  createdLabels : list CreatedLabel
}.

Module LatLonGraticuleGridTile.

Import GraticuleGridTile.

(** A lat-lon tile is a grid tile built by this constructor; the methods
    below override or extend those of [GraticuleGridTile]. *)
Definition new (sector : Sector) (divisions level : nat) : t :=
  GraticuleGridTile.new sector divisions level.

(** [LatLonGraticuleGridTile.minCellSizePixels = 40], a property of the
    constructor function. *)
Definition minCellSizePixels : float := 40.

(** [this.minCellSizePixels], read on a tile: neither the constructors nor
    the prototypes define such a property, so the read gives [undefined]. *)
Definition this_minCellSizePixels : float := undefinedAsNumber.

Definition graticuleLatLonLevel0 := "Graticule.LatLonLevel0".
Definition graticuleLatLonLevel1 := "Graticule.LatLonLevel1".
Definition graticuleLatLonLevel2 := "Graticule.LatLonLevel2".
Definition graticuleLatLonLevel3 := "Graticule.LatLonLevel3".
Definition graticuleLatLonLevel4 := "Graticule.LatLonLevel4".
Definition graticuleLatLonLevel5 := "Graticule.LatLonLevel5".

(** [resolution >= c] is [c <= resolution]; falling off the last [else if]
    returns [undefined]. *)
Definition getLevel (resolution : float) : option string :=
  if 10 <=? resolution then Some graticuleLatLonLevel0
  else if 1 <=? resolution then Some graticuleLatLonLevel1
  else if 0.1 <=? resolution then Some graticuleLatLonLevel2
  else if 0.01 <=? resolution then Some graticuleLatLonLevel3
  else if 0.001 <=? resolution then Some graticuleLatLonLevel4
  else if 0.0001 <=? resolution then Some graticuleLatLonLevel5
  else None.

Definition createSubTiles (this : t) : t :=
  let sectors := subdivideSector this in
  let subdivisions :=
    if Nat.eqb (level this) 0 || Nat.eqb (level this) 2 then 6%nat else 10%nat in
  set_subTiles this
    (Some (map (fun s => new s subdivisions (level this + 1)) sectors)).

Section Methods.
Context {W : WorldWind}.

Definition isInView (this : t) (dc : DrawContext) : Outcome bool :=
  inView <- GraticuleGridTile.isInView this dc ;;
  if negb inView then Ok false
  else if negb (Nat.eqb (level this) 0)
          && (getSizeInPixels this dc / nat2f (divisions this) <? minCellSizePixels)
  then Ok false
  else Ok true.

(** The first loop of [selectRenderables], run when [this.level == 0]: the
    path renderables and the created labels it pushes, in order. *)
Fixpoint selectBoundingLines (this : t) (dc : DrawContext)
    (graticuleLevel : option string) (labelOffset : Position)
    (ges : list GridElement.t)
  : list (Renderable * option string) * list CreatedLabel :=
  match ges with
  | [] => ([], [])
  | ge :: ges' =>
    let '(paths, labels) := selectBoundingLines this dc graticuleLevel labelOffset ges' in
    if GridElement.isInView ge dc None
       && (String.eqb (GridElement.type ge) GridElement.typeLineSouth
           || String.eqb (GridElement.type ge) GridElement.typeLineNorth
           || String.eqb (GridElement.type ge) GridElement.typeLineWest)
    then
      let labelType :=
        if String.eqb (GridElement.type ge) GridElement.typeLineNorth
           || String.eqb (GridElement.type ge) GridElement.typeLineSouth
        then GridElement.typeLatitudeLabel else GridElement.typeLongitudeLabel in
      ((GridElement.renderable ge, graticuleLevel) :: paths,
       mkCreatedLabel (GridElement.value ge) labelType graticuleLevel
                      (deltaLatitude (sector this)) labelOffset :: labels)
    else (paths, labels)
  end.

(** The label type chosen for an element of the second loop:
    [ge.sector.deltaLatitude() == 0 ? typeLatitudeLabel : typeLongitudeLabel]. *)
Definition tileLabelType (ge : GridElement.t) : string :=
  if PrimFloat.eqb (deltaLatitude (GridElement.sector ge)) 0
  then GridElement.typeLatitudeLabel else GridElement.typeLongitudeLabel.

(** The second loop of [selectRenderables] ("Add tile grid elements").
    [GridElement] has no method [isText], so reaching that call throws. *)
Fixpoint selectTileElements (this : t) (dc : DrawContext)
    (graticuleLevel : option string) (labelOffset : Position)
    (ges : list GridElement.t)
  : Outcome Selection :=
  match ges with
  | [] => Ok (mkSelection [] [] [])
  | ge :: ges' =>
    if GridElement.isInView ge dc None
       && String.eqb (GridElement.type ge) GridElement.typeLine
    then
      pushed <- (if GridElement.isLine ge
                 then Ok ([(GridElement.renderable ge, graticuleLevel)], [])
                 else Throw (TypeError "ge.isText is not a function")) ;;
      let label := mkCreatedLabel (GridElement.value ge) (tileLabelType ge) graticuleLevel
                                  (deltaLatitude (sector this)) labelOffset in
      rest <- selectTileElements this dc graticuleLevel labelOffset ges' ;;
      Ok (mkSelection (fst pushed ++ selectedPathRenderables rest)
                      (snd pushed ++ selectedTextRenderables rest)
                      (label :: createdLabels rest))
    else selectTileElements this dc graticuleLevel labelOffset ges'
  end.

(** The elements the second loop acts on, in order: those that pass its
    guard [ge.isInView(dc) && ge.type == GridElement.typeLine]. *)
Definition tileElementsInView (dc : DrawContext) (ges : list GridElement.t)
  : list GridElement.t :=
  filter (fun ge => GridElement.isInView ge dc None
                    && String.eqb (GridElement.type ge) GridElement.typeLine) ges.

(** The block guarded by [if (this.level == 0)], up to its early return:
    what the first loop pushes, or nothing on deeper tiles. *)
Definition boundingLines (this : t) (dc : DrawContext) (ges : list GridElement.t)
  : list (Renderable * option string) * list CreatedLabel :=
  if Nat.eqb (level this) 0
  then selectBoundingLines this dc (getLevel (deltaLatitude (sector this)))
                           (computeLabelOffset this dc) ges
  else ([], []).

(** [selectRenderables(dc)]: the returned arrays together with the tile as
    the call leaves it (its elements and sub-tiles are created on the way).
    The loop over the sub-tiles is [if (gt.isInView(dc)) gt.selectRenderables(dc);
    else gt.clearRenderables();]: the arrays returned by the inner call are
    not used, the sub-tile it leaves behind is. *)
Fixpoint selectRenderables (fuel : nat) (this : t) (dc : DrawContext)
  : Outcome (Selection * t) :=
  match fuel with
  | O => OutOfFuel
  | S fuel' =>
    this <- (match gridElements this with
             | Some _ => Ok this
             | None => createRenderables fuel' this
             end) ;;
    let ges := match gridElements this with Some l => l | None => [] end in
    let labelOffset := computeLabelOffset this dc in
    let level0 := boundingLines this dc ges in
    if Nat.eqb (level this) 0
       && (getSizeInPixels this dc / nat2f (divisions this) <? this_minCellSizePixels)
    then Ok (mkSelection (fst level0) [] (snd level0), this)
    else
      let resolution := deltaLatitude (sector this) / nat2f (divisions this) in
      let graticuleLevel := getLevel resolution in
      sel1 <- selectTileElements this dc graticuleLevel labelOffset ges ;;
      let result := mkSelection (fst level0 ++ selectedPathRenderables sel1)
                                (selectedTextRenderables sel1)
                                (snd level0 ++ createdLabels sel1) in
      if getSizeInPixels this dc / nat2f (divisions this) <? minCellSizePixels * 2
      then Ok (result, this)
      else
        let this := match subTiles this with
                    | Some _ => this
                    | None => createSubTiles this
                    end in
        let gts := match subTiles this with Some l => l | None => [] end in
        gts' <- forOf (fun gt =>
                  inView <- isInView gt dc ;;
                  if inView
                  then r <- selectRenderables fuel' gt dc ;; Ok (snd r)
                  else Ok (clearRenderables gt)) gts ;;
        Ok (result, set_subTiles this (Some gts'))
  end.

End Methods.

End LatLonGraticuleGridTile.

(* ------------------------------------------------------------------ *)
(** ** GraticuleSupport *)

Module GraticuleSupport.

(** The two renderable arrays; each entry pairs a shape with its parameter
    key.  The named rendering parameters play no part in selection. *)
Record t : Type := mk {
  pathRenderables : list (Renderable * option string);
  textRenderables : list (GeographicText * option string)
}.

Definition new : t := mk [] [].

Definition addPathRenderable (this : t) (path : Renderable) (paramKey : option string) : t :=
  mk (pathRenderables this ++ [(path, paramKey)]) (textRenderables this).

Definition addTextRenderable (this : t) (text : GeographicText) (paramKey : option string) : t :=
  mk (pathRenderables this) (textRenderables this ++ [(text, paramKey)]).

Definition removeAllRenderables (this : t) : t := mk [] [].

End GraticuleSupport.

(* ------------------------------------------------------------------ *)
(** ** GraticuleLayer *)

Module GraticuleLayer.

Definition dmsAngleFormat := "DegreesMinutesSeconds".
Definition dmAngleFormat := "DegreesMinutes".
Definition ddAngleFormat := "DecimalDegrees".

(** The layer, reduced to what selection reads and writes.  The view
    snapshot that [clear] also stores ([lastEyePoint], [lastHeading], ...)
    is used by [needsToUpdate] only and is left out. *)
Record t : Type := mk {
  graticuleSupport : GraticuleSupport.t;
  latitudeLabels : list float;
  longitudeLabels : list float;
  angleFormat : string
}.

Definition new : t := mk GraticuleSupport.new [] [] dmsAngleFormat.

(** [this.latitudeLabels.contains(value)]: the label arrays are plain
    arrays (set to [[]] by the constructor and by [clear]), and an array has
    no method [contains]: calling it throws, whatever the array holds. *)
Definition contains (l : list float) (v : float) : Outcome bool :=
  Throw (TypeError "this.latitudeLabels.contains is not a function").

Definition addTextRenderable (this : t) (text : GeographicText) (paramKey : option string) : t :=
  mk (GraticuleSupport.addTextRenderable (graticuleSupport this) text paramKey)
     (latitudeLabels this) (longitudeLabels this) (angleFormat this).

Definition addPathRenderable (this : t) (path : Renderable) (paramKey : option string) : t :=
  mk (GraticuleSupport.addPathRenderable (graticuleSupport this) path paramKey)
     (latitudeLabels this) (longitudeLabels this) (angleFormat this).

Definition removeAllRenderables (this : t) : t :=
  mk (GraticuleSupport.removeAllRenderables (graticuleSupport this))
     (latitudeLabels this) (longitudeLabels this) (angleFormat this).

(** [clear(dc)]: the renderables are removed and both label arrays are reset. *)
Definition clear (this : t) (dc : DrawContext) : t :=
  let this := removeAllRenderables this in
  mk (graticuleSupport this) [] [] (angleFormat this).

Section Methods.
Context {W : WorldWind}.

(** The [switch] on [this.angleFormat].  The decimal-degrees and default
    case assigns to [label], which is declared nowhere: in a strict module
    that assignment throws. *)
Definition makeAngleLabel (this : t) (angle resolution : float) : Outcome string :=
  if String.eqb (angleFormat this) dmsAngleFormat then
    if 1 <=? resolution then Ok (toDecimalDegreesString angle 0)
    else Ok (doDMSString angle)
  else if String.eqb (angleFormat this) dmAngleFormat then
    if 1 <=? resolution then Ok (toDecimalDegreesString angle 0)
    else Ok (toDMString angle)
  else Throw (ReferenceError "label").

(** [addLabel]: each of the two conditions is [labelType == ... &&
    !this.latitudeLabels.contains(value)], so [contains] is called only when
    the label type matches. *)
Definition addLabel (this : t) (value : float) (labelType : string)
    (graticuleLevel : option string) (resolution : float) (labelOffset : Position)
  : Outcome t :=
  angleLabel <- makeAngleLabel this value resolution ;;
  newLatitude <- (if String.eqb labelType GridElement.typeLatitudeLabel
                  then found <- contains (latitudeLabels this) value ;; Ok (negb found)
                  else Ok false) ;;
  if newLatitude
  then
    let this := mk (graticuleSupport this) (latitudeLabels this ++ [value])
                   (longitudeLabels this) (angleFormat this) in
    let text := mkGeographicText angleLabel (mkVec3 value (longitude labelOffset) 0) in
    Ok (addTextRenderable this text graticuleLevel)
  else
    newLongitude <- (if String.eqb labelType GridElement.typeLongitudeLabel
                     then found <- contains (latitudeLabels this) value ;; Ok (negb found)
                     else Ok false) ;;
    if newLongitude
    then
      let this := mk (graticuleSupport this) (latitudeLabels this)
                     (longitudeLabels this ++ [value]) (angleFormat this) in
      let text := mkGeographicText angleLabel (mkVec3 (latitude labelOffset) value 0) in
      Ok (addTextRenderable this text graticuleLevel)
    else Ok this.

(** The last loop of the layer's [selectRenderables]: every created label
    of a tile is forwarded to [addLabel], in order. *)
Fixpoint addCreatedLabels (this : t) (labels : list CreatedLabel) : Outcome t :=
  match labels with
  | [] => Ok this
  | l :: labels' =>
    this <- addLabel this (clValue l) (clLabelType l) (clGraticuleLevel l)
                     (clDeltaLatitude l) (clLabelOffset l) ;;
    addCreatedLabels this labels'
  end.

End Methods.

End GraticuleLayer.

(* ------------------------------------------------------------------ *)
(** ** LatLonGraticuleLayer *)

Module LatLonGraticuleLayer.

Definition getGridSector (row col : nat) : Sector :=
  let minLat := -90 + nat2f row * 10 in
  let maxLat := minLat + 10 in
  let minLon := -180 * nat2f col * 10 in
  let maxLon := minLon + 10 in
  mkSector minLat maxLat minLon maxLon.

(** The tile stored into an empty cell by [getVisibleTiles]:
    [new LatLonGraticleGridTile(this.getGridSector(row, col), 10, 0)]. *)
Definition newGridTile (row col : nat) : GraticuleGridTile.t :=
  LatLonGraticuleGridTile.new (getGridSector row col) 10 0.

End LatLonGraticuleLayer.

(* ------------------------------------------------------------------ *)
(** ** Concrete inputs *)

(** An instance of the surrounding library, used to run the code on
    concrete inputs: sectors overlap when their open latitude and longitude
    intervals meet, and the formatters return fixed texts (what a label
    says plays no part below). *)
Definition sampleOverlaps (a b : Sector) : bool :=
  (minLongitude a <? maxLongitude b) && (minLongitude b <? maxLongitude a)
  && (minLatitude a <? maxLatitude b) && (minLatitude b <? maxLatitude a).

#[global] Instance sampleWorldWind : WorldWind := {|
  overlaps := sampleOverlaps;
  DEGREES_TO_RADIANS := 0.017453292519943295;
  LINEAR := "linear";
  CLAMP_TO_GROUND := "clampToGround";
  toDecimalDegreesString := fun _ _ => "dd";
  doDMSString := fun _ => "dms";
  toDMString := fun _ => "dm"
|}.

Definition wholeGlobe : Sector := mkSector (-90) 90 (-180) 180.

(** The 10 by 10 degree cell with its south-west corner at the origin. *)
Definition originCell : Sector := mkSector 0 10 0 10.

(** The cell east of [originCell]. *)
Definition eastCell : Sector := mkSector 0 10 10 20.

(** A view from far away: every sector is inside the frustum and a degree
    covers about 17 pixels. *)
Definition farView : DrawContext := {|
  globe := mkGlobe (Some wholeGlobe);
  dcProjectionLimits := None;
  intersectsFrustum := fun _ => true;
  distanceToCentroid := fun _ => 1;
  pixelSizeAtDistance := fun d => d * 0.001;
  eyePosition := mkPosition 5 5 1000000
|}.

(** A close view in which only sectors starting at longitude 10 are inside
    the frustum; those are five times farther from the eye than the rest. *)
Definition closeView : DrawContext := {|
  globe := mkGlobe (Some wholeGlobe);
  dcProjectionLimits := None;
  intersectsFrustum := fun s => PrimFloat.eqb (minLongitude s) 10;
  distanceToCentroid := fun s => if PrimFloat.eqb (minLongitude s) 10 then 5 else 1;
  pixelSizeAtDistance := fun d => d * 0.0001;
  eyePosition := mkPosition 5 5 10000
|}.

(** A view whose globe has no projection limits. *)
Definition unlimitedView : DrawContext := {|
  globe := mkGlobe None;
  dcProjectionLimits := None;
  intersectsFrustum := fun _ => true;
  distanceToCentroid := fun _ => 1;
  pixelSizeAtDistance := fun d => d * 0.001;
  eyePosition := mkPosition 5 5 1000000
|}.

(** The first interior meridian of [originCell] cut into ten. *)
Definition sampleMeridian : GridElement.t :=
  GridElement.mk (mkSector 0 10 1 1)
    (RPath (GraticuleGridTile.createLineRenderable
              [mkPosition 0 1 0; mkPosition 10 1 0] LINEAR))
    GridElement.typeLine 1.

(** Label requests for the value 10, as a level-0 tile creates them. *)
Definition longitudeRequest : CreatedLabel :=
  mkCreatedLabel 10 GridElement.typeLongitudeLabel
                 (Some LatLonGraticuleGridTile.graticuleLatLonLevel0) 10 (mkPosition 5 5 1000000).

Definition latitudeRequest : CreatedLabel :=
  mkCreatedLabel 10 GridElement.typeLatitudeLabel
                 (Some LatLonGraticuleGridTile.graticuleLatLonLevel0) 10 (mkPosition 5 5 1000000).

(** A layer at the start of a frame: just cleared. *)
Definition clearedLayer : GraticuleLayer.t := GraticuleLayer.clear GraticuleLayer.new farView.

Definition level0Tile : GraticuleGridTile.t := LatLonGraticuleGridTile.new originCell 10 0.
Definition level1Tile : GraticuleGridTile.t := LatLonGraticuleGridTile.new originCell 10 1.
Definition eastChild : GraticuleGridTile.t := LatLonGraticuleGridTile.new eastCell 6 1.

(* ------------------------------------------------------------------ *)
(** ** Rendering parameters *)

(** A color as the graticule code reads it: four components. *)
Record Color : Type := mkColor {
  red : float;
  green : float;
  blue : float;
  alpha : float
}.

(** A font, by the arguments of its constructor:
    [new Font(size, style, variant, weight, family, horizontalAlignment)]. *)
Record Font : Type := mkFont {
  fontSize : float;
  fontStyle : option string;
  fontVariant : option string;
  fontWeight : option string;
  fontFamily : option string;
  fontHorizontalAlignment : option string
}.

(** The named colors of [Color], which are not in the sources at hand. *)
Class Colors : Type := {
  WHITE : Color;
  GREEN : Color;
  CYAN : Color
}.

Module GraticuleRenderingParams.

Definition lineStyleSolid := "LineStyleSolid".
Definition lineStyleDashed := "LineStyleDashed".
Definition lineStyleDotted := "LineStyleDotted".

Record t : Type := mk {
  drawLines : bool;
  lineColor : Color;
  lineWidth : float;
  lineStyle : string;
  drawLabels : bool;
  labelColor : Color;
  labelFont : Font
}.

(** The constructor. *)
Definition new {C : Colors} : t :=
  mk true WHITE 1.0 lineStyleSolid true WHITE
     (mkFont 12 None None (Some "bold") (Some "Arial") None).

Definition set_lineColor (this : t) (c : Color) : t :=
  mk (drawLines this) c (lineWidth this) (lineStyle this)
     (drawLabels this) (labelColor this) (labelFont this).

Definition set_labelColor (this : t) (c : Color) : t :=
  mk (drawLines this) (lineColor this) (lineWidth this) (lineStyle this)
     (drawLabels this) c (labelFont this).

Definition set_labelFont (this : t) (f : Font) : t :=
  mk (drawLines this) (lineColor this) (lineWidth this) (lineStyle this)
     (drawLabels this) (labelColor this) f.

End GraticuleRenderingParams.

(** The map [_namedParams] of [GraticuleSupport], from parameter keys to
    rendering parameters, with the two methods that read and write it (the
    layer's methods of the same names pass their arguments on to these). *)
Module NamedParams.

(** A [Map] with string keys: entries in insertion order, one per key. *)
Definition t : Type := list (string * GraticuleRenderingParams.t).

Fixpoint get (m : t) (key : string) : option GraticuleRenderingParams.t :=
  match m with
  | [] => None
  | (k, v) :: m' => if String.eqb k key then Some v else get m' key
  end.

Fixpoint set (m : t) (key : string) (value : GraticuleRenderingParams.t) : t :=
  match m with
  | [] => [(key, value)]
  | (k, v) :: m' =>
    if String.eqb k key then (key, value) :: m' else (k, v) :: set m' key value
  end.

(** [getRenderingParams(paramKey)]: the parameters stored under the key; when
    there are none, a new default set is stored under the key and returned. *)
Definition getRenderingParams {C : Colors} (m : t) (paramKey : string)
  : GraticuleRenderingParams.t * t :=
  match get m paramKey with
  | Some renderingParams => (renderingParams, m)
  | None =>
    let renderingParams := GraticuleRenderingParams.new in
    (renderingParams, set m paramKey renderingParams)
  end.

Definition setRenderingParams (m : t) (paramKey : string)
    (renderingParams : GraticuleRenderingParams.t) : t :=
  set m paramKey renderingParams.

(** [LatLonGraticuleLayer.prototype.initRenderingParams]: the parameters of
    the six graticule levels. *)
Definition initRenderingParams {C : Colors} (m : t) : t :=
  let level0Params := GraticuleRenderingParams.new in
  let level0Params := GraticuleRenderingParams.set_lineColor level0Params WHITE in
  let level0Params := GraticuleRenderingParams.set_labelColor level0Params WHITE in
  let level0Params := GraticuleRenderingParams.set_labelFont level0Params
                        (mkFont 16 None None (Some "bold") (Some "Arial") None) in
  let m := setRenderingParams m LatLonGraticuleGridTile.graticuleLatLonLevel0 level0Params in
  let level1Params := GraticuleRenderingParams.new in
  let level1Params := GraticuleRenderingParams.set_lineColor level1Params GREEN in
  let level1Params := GraticuleRenderingParams.set_labelColor level1Params GREEN in
  let level1Params := GraticuleRenderingParams.set_labelFont level1Params
                        (mkFont 14 None None (Some "bold") (Some "Arial") None) in
  let m := setRenderingParams m LatLonGraticuleGridTile.graticuleLatLonLevel1 level1Params in
  let level2Params := GraticuleRenderingParams.new in
  let level2Params := GraticuleRenderingParams.set_lineColor level2Params
                        (mkColor (0 / 255) (102 / 255) (255 / 255) 1.0) in
  let level2Params := GraticuleRenderingParams.set_labelColor level2Params
                        (mkColor (0 / 255) (102 / 255) (255 / 255) 1.0) in
  let m := setRenderingParams m LatLonGraticuleGridTile.graticuleLatLonLevel2 level2Params in
  let level3Params := GraticuleRenderingParams.new in
  let level3Params := GraticuleRenderingParams.set_lineColor level3Params CYAN in
  let level3Params := GraticuleRenderingParams.set_labelColor level3Params CYAN in
  let m := setRenderingParams m LatLonGraticuleGridTile.graticuleLatLonLevel3 level3Params in
  let level4Params := GraticuleRenderingParams.new in
  let level4Params := GraticuleRenderingParams.set_lineColor level4Params CYAN in
  let level4Params := GraticuleRenderingParams.set_labelColor level4Params CYAN in
  let m := setRenderingParams m LatLonGraticuleGridTile.graticuleLatLonLevel4 level4Params in
  let level5Params := GraticuleRenderingParams.new in
  let level5Params := GraticuleRenderingParams.set_lineColor level5Params
                        (mkColor (102 / 255) (255 / 255) (204 / 255) 1.0) in
  let level5Params := GraticuleRenderingParams.set_labelColor level5Params
                        (mkColor (102 / 255) (255 / 255) (204 / 255) 1.0) in
  setRenderingParams m LatLonGraticuleGridTile.graticuleLatLonLevel5 level5Params.

End NamedParams.

(* ------------------------------------------------------------------ *)
(** ** Notions used to state the further properties *)

Import GraticuleGridTile.
Import LatLonGraticuleGridTile.

(** What holds of every element [createRenderables] makes for a tile: it is
    a line of one of four types; its shape is a two-point path
    clamped to the ground, from the south-west to the north-east corner of
    the element's sector; and it is either a meridian spanning the tile's
    latitudes or a parallel spanning its longitudes, with the coordinate it
    marks as its value. *)
Definition elementOf {W : WorldWind} (this : t) (ge : GridElement.t) : Prop :=
  (GridElement.type ge = GridElement.typeLine \/
   GridElement.type ge = GridElement.typeLineWest \/
   GridElement.type ge = GridElement.typeLineSouth \/
   GridElement.type ge = GridElement.typeLineNorth) /\
  GridElement.renderable ge =
    RPath (mkPath [ mkPosition (minLatitude (GridElement.sector ge))
                               (minLongitude (GridElement.sector ge)) 0;
                    mkPosition (maxLatitude (GridElement.sector ge))
                               (maxLongitude (GridElement.sector ge)) 0 ]
                  CLAMP_TO_GROUND true LINEAR) /\
  (GridElement.sector ge =
     mkSector (minLatitude (sector this)) (maxLatitude (sector this))
              (GridElement.value ge) (GridElement.value ge)
   \/
   GridElement.sector ge =
     mkSector (GridElement.value ge) (GridElement.value ge)
              (minLongitude (sector this)) (maxLongitude (sector this))).

(** The body of the loop over the sub-tiles. *)
Definition visitSubTile {W : WorldWind} (fuel : nat) (dc : DrawContext) (gt : t)
  : Outcome t :=
  inView <- isInView gt dc ;;
  if inView
  then r <- selectRenderables fuel gt dc ;; Ok (snd r)
  else Ok (clearRenderables gt).

(** The elements the first loop acts on, in order: those that pass its
    guard (in view, and a south, north or west line). *)
Definition boundingElementsInView {W : WorldWind} (dc : DrawContext)
    (ges : list GridElement.t) : list GridElement.t :=
  filter (fun ge => GridElement.isInView ge dc None
                    && (String.eqb (GridElement.type ge) GridElement.typeLineSouth
                        || String.eqb (GridElement.type ge) GridElement.typeLineNorth
                        || String.eqb (GridElement.type ge) GridElement.typeLineWest)) ges.

(* ------------------------------------------------------------------ *)
(** ** Further concrete inputs *)

(** Values for the named colors, used to run the code on concrete inputs. *)
#[global] Instance sampleColors : Colors := {|
  WHITE := mkColor 1 1 1 1;
  GREEN := mkColor 0 1 0 1;
  CYAN := mkColor 0 1 1 1
|}.

(** A view from close by in which every sector is inside the frustum. *)
Definition zoomedView : DrawContext := {|
  globe := mkGlobe (Some wholeGlobe);
  dcProjectionLimits := None;
  intersectsFrustum := fun _ => true;
  distanceToCentroid := fun _ => 1;
  pixelSizeAtDistance := fun d => d * 0.0001;
  eyePosition := mkPosition 5 5 10000
|}.

(** A tile whose sector has no latitude extent. *)
Definition flatTile : GraticuleGridTile.t :=
  LatLonGraticuleGridTile.new (mkSector 0 0 0 10) 10 0.

(** A request for a label of a type that is neither a latitude nor a
    longitude label. *)
Definition gridZoneRequest : CreatedLabel :=
  mkCreatedLabel 10 GridElement.typeGridZoneLabel
                 (Some LatLonGraticuleGridTile.graticuleLatLonLevel0) 10 (mkPosition 5 5 1000000).

(** A layer set to decimal degrees. *)
Definition decimalLayer : GraticuleLayer.t :=
  GraticuleLayer.mk GraticuleSupport.new [] [] GraticuleLayer.ddAngleFormat.


(* ================================================================== *)
(** * Properties *)

Import GraticuleGridTile.
Import LatLonGraticuleGridTile.

(* ------------------------------------------------------------------ *)
(** ** Order facts on binary64 numbers *)

(** Case analysis on the exponent and mantissa comparisons that decide the
    order of two finite numbers. *)
Ltac compare_cases :=
  change (Pos.compare_cont Eq) with Pos.compare in *;
  repeat match goal with
  | H : context [Z.compare ?p ?q] |- _ => destruct (Z.compare_spec p q); try discriminate
  | |- context [Z.compare ?p ?q] => destruct (Z.compare_spec p q); try lia
  | H : context [Pos.compare ?p ?q] |- _ => destruct (Pos.compare_spec p q); try discriminate
  | |- context [Pos.compare ?p ?q] => destruct (Pos.compare_spec p q); try lia
  end;
  subst; cbn in *; try reflexivity; try discriminate; try lia.

Lemma SFltb_SFleb_trans (x a b : spec_float) :
  SFltb x a = true -> SFleb a b = true -> SFleb b x = false.
Proof.
  unfold SFltb, SFleb.
  destruct x as [[]|[]| |[] mx ex], a as [[]|[]| |[] ma ea], b as [[]|[]| |[] mb eb];
    cbn; try discriminate; try reflexivity; intros H1 H2; compare_cases.
Qed.

Lemma SFltb_trans (x a b : spec_float) :
  SFltb x a = true -> SFltb a b = true -> SFltb x b = true.
Proof.
  unfold SFltb.
  destruct x as [[]|[]| |[] mx ex], a as [[]|[]| |[] ma ea], b as [[]|[]| |[] mb eb];
    cbn; try discriminate; try reflexivity; intros H1 H2; compare_cases.
Qed.

(** [x < a] and [a <= b] exclude [b <= x]. *)
Lemma ltb_leb_trans (x a b : float) :
  (x <? a) = true -> (a <=? b) = true -> (b <=? x) = false.
Proof. rewrite !FloatAxioms.ltb_spec, !FloatAxioms.leb_spec. apply SFltb_SFleb_trans. Qed.

Lemma ltb_trans (x a b : float) :
  (x <? a) = true -> (a <? b) = true -> (x <? b) = true.
Proof. rewrite !FloatAxioms.ltb_spec. apply SFltb_trans. Qed.

(** No number is below NaN. *)
Lemma ltb_nan_r (x : float) : (x <? nan) = false.
Proof.
  rewrite FloatAxioms.ltb_spec. unfold SFltb.
  change (Prim2SF nan) with S754_nan.
  destruct (Prim2SF x); reflexivity.
Qed.

(* ------------------------------------------------------------------ *)
(** ** GridElement *)

(** C10: without an explicit sector and without projection limits on the
    globe, [isInView] answers false instead of failing; with a sector at
    hand (passed in, or else the globe's projection limits) it answers
    exactly whether the element's sector overlaps that sector. *)
Theorem GridElement_isInView_spec {W : WorldWind} (ge : GridElement.t) (dc : DrawContext) :
  (projectionLimits (globe dc) = None -> GridElement.isInView ge dc None = false) /\
  (forall vs, GridElement.isInView ge dc (Some vs) = overlaps (GridElement.sector ge) vs) /\
  (forall pl, projectionLimits (globe dc) = Some pl ->
              GridElement.isInView ge dc None = overlaps (GridElement.sector ge) pl).
Proof.
  unfold GridElement.isInView. repeat split.
  - intros ->. reflexivity.
  - intros pl ->. reflexivity.
Qed.

Lemma GridElement_isInView_spec_witness :
  GridElement.isInView sampleMeridian unlimitedView None = false /\
  GridElement.isInView sampleMeridian unlimitedView (Some wholeGlobe) = true /\
  GridElement.isInView sampleMeridian farView None = true.
Proof.
  split; [| split].
  - apply (proj1 (GridElement_isInView_spec sampleMeridian unlimitedView)). reflexivity.
  - rewrite (proj1 (proj2 (GridElement_isInView_spec sampleMeridian unlimitedView))).
    reflexivity.
  - rewrite (proj2 (proj2 (GridElement_isInView_spec sampleMeridian farView)) wholeGlobe eq_refl).
    reflexivity.
Defined.

(* ------------------------------------------------------------------ *)
(** ** Levels and sub-tiles *)

(** C4: [getLevel] follows the banded table; below 0.0001 no level is
    defined.  In particular 10 is level 0, 9.999 is level 1 and 0.00009 has
    no level. *)
Theorem getLevel_bands (resolution : float) :
  ((10 <=? resolution) = true -> getLevel resolution = Some graticuleLatLonLevel0) /\
  ((1 <=? resolution) = true -> (resolution <? 10) = true ->
     getLevel resolution = Some graticuleLatLonLevel1) /\
  ((0.1 <=? resolution) = true -> (resolution <? 1) = true ->
     getLevel resolution = Some graticuleLatLonLevel2) /\
  ((0.01 <=? resolution) = true -> (resolution <? 0.1) = true ->
     getLevel resolution = Some graticuleLatLonLevel3) /\
  ((0.001 <=? resolution) = true -> (resolution <? 0.01) = true ->
     getLevel resolution = Some graticuleLatLonLevel4) /\
  ((0.0001 <=? resolution) = true -> (resolution <? 0.001) = true ->
     getLevel resolution = Some graticuleLatLonLevel5) /\
  ((resolution <? 0.0001) = true -> getLevel resolution = None) /\
  getLevel 10 = Some graticuleLatLonLevel0 /\
  getLevel 9.999 = Some graticuleLatLonLevel1 /\
  getLevel 0.00009 = None.
Proof.
  unfold getLevel. repeat split; try reflexivity.
  - intros ->. reflexivity.
  - intros H1 H.
    rewrite (ltb_leb_trans _ 10 10 H eq_refl), H1. reflexivity.
  - intros H1 H.
    rewrite (ltb_leb_trans _ 1 10 H eq_refl), (ltb_leb_trans _ 1 1 H eq_refl), H1.
    reflexivity.
  - intros H1 H.
    rewrite (ltb_leb_trans _ 0.1 10 H eq_refl), (ltb_leb_trans _ 0.1 1 H eq_refl),
      (ltb_leb_trans _ 0.1 0.1 H eq_refl), H1.
    reflexivity.
  - intros H1 H.
    rewrite (ltb_leb_trans _ 0.01 10 H eq_refl), (ltb_leb_trans _ 0.01 1 H eq_refl),
      (ltb_leb_trans _ 0.01 0.1 H eq_refl), (ltb_leb_trans _ 0.01 0.01 H eq_refl), H1.
    reflexivity.
  - intros H1 H.
    rewrite (ltb_leb_trans _ 0.001 10 H eq_refl), (ltb_leb_trans _ 0.001 1 H eq_refl),
      (ltb_leb_trans _ 0.001 0.1 H eq_refl), (ltb_leb_trans _ 0.001 0.01 H eq_refl),
      (ltb_leb_trans _ 0.001 0.001 H eq_refl), H1.
    reflexivity.
  - intros H.
    rewrite (ltb_leb_trans _ 0.0001 10 H eq_refl), (ltb_leb_trans _ 0.0001 1 H eq_refl),
      (ltb_leb_trans _ 0.0001 0.1 H eq_refl), (ltb_leb_trans _ 0.0001 0.01 H eq_refl),
      (ltb_leb_trans _ 0.0001 0.001 H eq_refl), (ltb_leb_trans _ 0.0001 0.0001 H eq_refl).
    reflexivity.
Qed.

Lemma getLevel_bands_witness :
  getLevel 5 = Some graticuleLatLonLevel1 /\
  getLevel 0.5 = Some graticuleLatLonLevel2 /\
  getLevel 0.00005 = None.
Proof.
  split; [| split].
  - apply (proj1 (proj2 (getLevel_bands 5))); reflexivity.
  - apply (proj1 (proj2 (proj2 (getLevel_bands 0.5)))); reflexivity.
  - apply (proj1 (proj2 (proj2 (proj2 (proj2 (proj2 (proj2 (getLevel_bands 0.00005)))))))).
    reflexivity.
Defined.

(* ------------------------------------------------------------------ *)
(** ** Sub-tiles *)

Lemma flat_map_length_const {A B : Type} (f : A -> list B) (l : list A) (n : nat) :
  (forall a, List.length (f a) = n) ->
  List.length (flat_map f l) = (List.length l * n)%nat.
Proof.
  intros Hf. induction l as [|a l IH]; cbn [flat_map List.length].
  - reflexivity.
  - rewrite length_app, Hf, IH. reflexivity.
Qed.

Lemma subdivideSector_length (this : t) :
  List.length (subdivideSector this) = (divisions this * divisions this)%nat.
Proof.
  unfold subdivideSector.
  rewrite (flat_map_length_const _ _ (divisions this)).
  - rewrite length_seq. reflexivity.
  - intros row. rewrite length_map, length_seq. reflexivity.
Qed.

Lemma nth_error_flat_map_rows {B : Type} (f : nat -> nat -> B) (n rows start row col : nat) :
  (row < rows)%nat -> (col < n)%nat ->
  nth_error (flat_map (fun r => map (f r) (seq 0 n)) (seq start rows)) (row * n + col)
  = Some (f (start + row)%nat col).
Proof.
  revert start row. induction rows as [|rows IH]; intros start row Hr Hc; [lia|].
  cbn [seq flat_map]. destruct row as [|row].
  - cbn [Nat.mul Nat.add]. rewrite nth_error_app1 by (rewrite length_map, length_seq; exact Hc).
    rewrite nth_error_map, nth_error_seq.
    destruct (Nat.ltb_spec col n); [| lia]. cbn. rewrite Nat.add_0_r. reflexivity.
  - rewrite nth_error_app2 by (rewrite length_map, length_seq; cbn; lia).
    rewrite length_map, length_seq.
    replace (S row * n + col - n)%nat with (row * n + col)%nat by (cbn; lia).
    rewrite IH by lia. f_equal. f_equal. lia.
Qed.

(** Where the sub-sector of a given row and column is stored, and what it
    is: the parent's rectangle moved by whole multiples of its own extent. *)
Lemma subdivideSector_nth (this : t) (row col : nat) :
  (row < divisions this)%nat -> (col < divisions this)%nat ->
  nth_error (subdivideSector this) (row * divisions this + col) =
  Some (mkSector
          (minLatitude (sector this) + deltaLatitude (sector this) * nat2f row)
          (minLatitude (sector this) + deltaLatitude (sector this) * nat2f row
           + deltaLatitude (sector this))
          (minLongitude (sector this) + deltaLongitude (sector this) * nat2f col)
          (minLongitude (sector this) + deltaLongitude (sector this) * nat2f col
           + deltaLongitude (sector this))).
Proof.
  intros Hr Hc. unfold subdivideSector.
  rewrite (nth_error_flat_map_rows
             (fun r c => mkSector
                (minLatitude (sector this) + deltaLatitude (sector this) * nat2f r)
                (minLatitude (sector this) + deltaLatitude (sector this) * nat2f r
                 + deltaLatitude (sector this))
                (minLongitude (sector this) + deltaLongitude (sector this) * nat2f c)
                (minLongitude (sector this) + deltaLongitude (sector this) * nat2f c
                 + deltaLongitude (sector this))))
    by assumption.
  reflexivity.
Qed.

(** C6: every child built by [createSubTiles] is one level below its parent
    and is cut into 6 when the parent's level is 0 or 2, and into 10
    otherwise; there is one child per sub-sector. *)
Theorem createSubTiles_children (this : t) :
  exists children,
    subTiles (createSubTiles this) = Some children /\
    List.length children = (divisions this * divisions this)%nat /\
    map sector children = subdivideSector this /\
    Forall (fun child =>
              level child = (level this + 1)%nat /\
              (level this = 0%nat \/ level this = 2%nat -> divisions child = 6%nat) /\
              (level this <> 0%nat -> level this <> 2%nat -> divisions child = 10%nat))
           children.
Proof.
  unfold createSubTiles. cbn [set_subTiles subTiles].
  eexists. split; [reflexivity|]. split; [| split].
  - rewrite length_map. apply subdivideSector_length.
  - rewrite map_map. cbn. apply map_id.
  - apply Forall_forall. intros child Hin.
    apply in_map_iff in Hin as (s & <- & _). cbn.
    split; [reflexivity|]. split.
    + intros [-> | ->]; reflexivity.
    + intros H0 H2.
      destruct (Nat.eqb_spec (level this) 0); [contradiction|].
      destruct (Nat.eqb_spec (level this) 2); [contradiction|].
      reflexivity.
Qed.

Lemma createSubTiles_children_witness :
  exists children,
    subTiles (createSubTiles level0Tile) = Some children /\
    Forall (fun child => level child = 1%nat /\ divisions child = 6%nat) children.
Proof.
  destruct (createSubTiles_children level0Tile) as (children & E & _ & _ & F).
  exists children. split; [exact E|].
  eapply Forall_impl; [| exact F].
  intros child (Hl & H6 & _). split; [exact Hl|].
  apply H6. left. reflexivity.
Defined.

(** C1, as the code has it: with [originCell] cut into ten, the hundred
    sub-sectors are copies of the whole cell moved by multiples of ten
    degrees.  The first is the cell itself, the second lies east of it, and
    the last reaches to latitude and longitude 100: they do not partition
    the cell into ten by ten equal parts. *)
Theorem subdivideSector_leaves_parent :
  List.length (subdivideSector level0Tile) = 100%nat /\
  nth_error (subdivideSector level0Tile) 0 = Some originCell /\
  nth_error (subdivideSector level0Tile) 1 = Some eastCell /\
  nth_error (subdivideSector level0Tile) 99 = Some (mkSector 90 100 90 100) /\
  forallb (fun s => PrimFloat.eqb (deltaLatitude s) 10 && PrimFloat.eqb (deltaLongitude s) 10)
          (subdivideSector level0Tile) = true.
Proof.
  split; [apply subdivideSector_length|].
  split; [apply (subdivideSector_nth level0Tile 0 0); cbn; lia|].
  split; [apply (subdivideSector_nth level0Tile 0 1); cbn; lia|].
  split; [apply (subdivideSector_nth level0Tile 9 9); cbn; lia|].
  vm_compute. reflexivity.
Qed.

(* ------------------------------------------------------------------ *)
(** ** Selection *)

Lemma isLine_typeLine (ge : GridElement.t) :
  String.eqb (GridElement.type ge) GridElement.typeLine = true ->
  GridElement.isLine ge = true.
Proof. intros E. unfold GridElement.isLine. rewrite E. reflexivity. Qed.

Lemma selectTileElements_text {W : WorldWind} (this : t) (dc : DrawContext)
    (graticuleLevel : option string) (labelOffset : Position)
    (ges : list GridElement.t) (sel : Selection) :
  selectTileElements this dc graticuleLevel labelOffset ges = Ok sel ->
  selectedTextRenderables sel = [].
Proof.
  revert sel. induction ges as [|ge ges IH]; intros sel; cbn [selectTileElements].
  - intros [= <-]. reflexivity.
  - destruct (GridElement.isInView ge dc None
              && String.eqb (GridElement.type ge) GridElement.typeLine) eqn:E.
    + apply andb_prop in E as [_ E]. rewrite (isLine_typeLine ge E).
      cbn [bind fst snd].
      destruct (selectTileElements this dc graticuleLevel labelOffset ges) as [rest| |];
        cbn [bind]; try discriminate.
      intros [= <-]. cbn. apply IH. reflexivity.
    + apply IH.
Qed.

Lemma createRenderables_fields {W : WorldWind} (fuel : nat) (this this1 : t) :
  createRenderables fuel this = Ok this1 ->
  exists ges, this1 = set_gridElements this (Some ges).
Proof.
  unfold createRenderables.
  destruct (meridians fuel this _ _) as [ms| |]; cbn [bind]; try discriminate.
  destruct (parallels fuel this _ _) as [ps| |]; cbn [bind]; try discriminate.
  intros [= <-]. eexists. reflexivity.
Qed.

(** The two loops read the tile's sector only. *)
Lemma selectTileElements_sector {W : WorldWind} (a b : t) dc gl off ges :
  sector a = sector b ->
  selectTileElements a dc gl off ges = selectTileElements b dc gl off ges.
Proof.
  intros E. induction ges as [|ge ges IH]; cbn [selectTileElements].
  - reflexivity.
  - rewrite IH, E. reflexivity.
Qed.

Lemma selectBoundingLines_sector {W : WorldWind} (a b : t) dc gl off ges :
  sector a = sector b ->
  selectBoundingLines a dc gl off ges = selectBoundingLines b dc gl off ges.
Proof.
  intros E. induction ges as [|ge ges IH]; cbn [selectBoundingLines].
  - reflexivity.
  - rewrite IH, E. reflexivity.
Qed.

Lemma boundingLines_fields {W : WorldWind} (a b : t) dc ges :
  sector a = sector b -> level a = level b ->
  boundingLines a dc ges = boundingLines b dc ges.
Proof.
  intros Es El. unfold boundingLines, computeLabelOffset. rewrite El, Es.
  destruct (Nat.eqb (level b) 0); [| reflexivity].
  apply selectBoundingLines_sector. exact Es.
Qed.

(** What any returning call of [selectRenderables] has computed. *)
Lemma selectRenderables_Ok {W : WorldWind} (fuel : nat) (this : t) (dc : DrawContext)
    (sel : Selection) (this' : t) :
  selectRenderables fuel this dc = Ok (sel, this') ->
  exists ges sel1,
    gridElements this' = Some ges /\
    sector this' = sector this /\ divisions this' = divisions this /\
    level this' = level this /\
    selectTileElements this dc
      (getLevel (deltaLatitude (sector this) / nat2f (divisions this)))
      (eyePosition dc) ges = Ok sel1 /\
    sel = mkSelection
            (fst (boundingLines this dc ges) ++ selectedPathRenderables sel1)
            (selectedTextRenderables sel1)
            (snd (boundingLines this dc ges) ++ createdLabels sel1).
Proof.
  destruct fuel as [|fuel]; [discriminate|].
  cbn [selectRenderables].
  destruct (match gridElements this with
            | Some _ => Ok this
            | None => createRenderables fuel this
            end) as [this1| |] eqn:E1; cbn [bind]; try discriminate.
  assert (exists ges, gridElements this1 = Some ges /\ sector this1 = sector this
                      /\ divisions this1 = divisions this /\ level this1 = level this)
    as (ges & Eg & Es & Ed & El).
  { destruct (gridElements this) as [ges|] eqn:Eg.
    - injection E1 as <-. exists ges. auto.
    - apply createRenderables_fields in E1 as [ges ->]. exists ges. cbn. auto. }
  rewrite Eg.
  unfold this_minCellSizePixels, undefinedAsNumber.
  rewrite ltb_nan_r, andb_false_r.
  unfold computeLabelOffset at 1.
  rewrite (selectTileElements_sector this1 this) by exact Es.
  rewrite (boundingLines_fields this1 this) by assumption.
  rewrite Es, Ed.
  destruct (selectTileElements this dc _ _ ges) as [sel1| |] eqn:E2; cbn [bind];
    try discriminate.
  destruct (_ <? _).
  - intros [= <- <-]. exists ges, sel1. repeat split; assumption.
  - destruct (forOf _ _) as [gts'| |]; cbn [bind]; try discriminate.
    intros [= <- <-]. exists ges, sel1.
    destruct (subTiles this1); cbn; repeat split; assumption.
Qed.

(** The second loop never throws: an element of type Line is a line. *)
Lemma selectTileElements_returns {W : WorldWind} (this : t) (dc : DrawContext)
    (graticuleLevel : option string) (labelOffset : Position) (ges : list GridElement.t) :
  exists sel, selectTileElements this dc graticuleLevel labelOffset ges = Ok sel.
Proof.
  induction ges as [|ge ges [rest IH]]; cbn [selectTileElements].
  - eexists. reflexivity.
  - destruct (GridElement.isInView ge dc None
              && String.eqb (GridElement.type ge) GridElement.typeLine) eqn:E.
    + apply andb_prop in E as [_ E]. rewrite (isLine_typeLine ge E), IH.
      cbn [bind]. eexists. reflexivity.
    + exists rest. exact IH.
Qed.

(** A tile whose elements are cached and whose cells are under the
    recursion threshold is handled by one call, which leaves it as it was. *)
Lemma selectRenderables_returns {W : WorldWind} (fuel : nat) (this : t) (dc : DrawContext)
    (ges : list GridElement.t) :
  gridElements this = Some ges ->
  (getSizeInPixels this dc / nat2f (divisions this) <? minCellSizePixels * 2) = true ->
  exists sel, selectRenderables (S fuel) this dc = Ok (sel, this).
Proof.
  intros Eg Hsmall. cbn [selectRenderables]. rewrite Eg. cbn [bind]. rewrite Eg.
  unfold this_minCellSizePixels, undefinedAsNumber. rewrite ltb_nan_r, andb_false_r.
  destruct (selectTileElements_returns this dc
              (getLevel (deltaLatitude (sector this) / nat2f (divisions this)))
              (computeLabelOffset this dc) ges) as [sel1 E1].
  rewrite E1. cbn [bind]. rewrite Hsmall. eexists. reflexivity.
Qed.

(** C9: whatever [selectRenderables] returns, its selected text renderables
    are empty. *)
Theorem selectRenderables_text_empty {W : WorldWind} (fuel : nat) (this : t)
    (dc : DrawContext) (sel : Selection) (this' : t) :
  selectRenderables fuel this dc = Ok (sel, this') ->
  selectedTextRenderables sel = [].
Proof.
  intros H.
  apply selectRenderables_Ok in H as (ges & sel1 & _ & _ & _ & _ & H1 & ->).
  cbn [selectedTextRenderables].
  eapply selectTileElements_text. exact H1.
Qed.

Lemma selectRenderables_text_empty_witness :
  exists sel this',
    selectRenderables 20 level0Tile closeView = Ok (sel, this') /\
    selectedTextRenderables sel = [].
Proof.
  destruct (selectRenderables 20 level0Tile closeView) as [[sel this']| |] eqn:E.
  - exists sel, this'. split; [reflexivity|].
    exact (selectRenderables_text_empty 20 level0Tile closeView sel this' E).
  - vm_compute in E. discriminate E.
  - vm_compute in E. discriminate E.
Defined.

(** The second loop pushes one path and one label per element that passes
    its guard, in order; the label carries the element's value and the
    label type chosen from the element's latitude-delta. *)
Lemma selectTileElements_labels {W : WorldWind} (this : t) (dc : DrawContext)
    (graticuleLevel : option string) (labelOffset : Position)
    (ges : list GridElement.t) (sel : Selection) :
  selectTileElements this dc graticuleLevel labelOffset ges = Ok sel ->
  map fst (selectedPathRenderables sel)
    = map GridElement.renderable (tileElementsInView dc ges) /\
  Forall2 (fun ge cl =>
             clValue cl = GridElement.value ge /\
             clGraticuleLevel cl = graticuleLevel /\
             (PrimFloat.eqb (deltaLatitude (GridElement.sector ge)) 0 = true ->
              clLabelType cl = GridElement.typeLatitudeLabel) /\
             (PrimFloat.eqb (deltaLatitude (GridElement.sector ge)) 0 = false ->
              clLabelType cl = GridElement.typeLongitudeLabel))
          (tileElementsInView dc ges) (createdLabels sel).
Proof.
  revert sel. unfold tileElementsInView.
  induction ges as [|ge ges IH]; intros sel; cbn [selectTileElements filter].
  - intros [= <-]. split; [reflexivity | constructor].
  - destruct (GridElement.isInView ge dc None
              && String.eqb (GridElement.type ge) GridElement.typeLine) eqn:E.
    + apply andb_prop in E as [_ E]. rewrite (isLine_typeLine ge E).
      cbn [bind fst snd].
      destruct (selectTileElements this dc graticuleLevel labelOffset ges) as [rest| |];
        cbn [bind]; try discriminate.
      intros [= <-]. destruct (IH rest eq_refl) as [IHp IHl].
      cbn [selectedPathRenderables createdLabels app map fst]. split.
      * rewrite IHp. reflexivity.
      * constructor; [| exact IHl].
        unfold tileLabelType. cbn [clValue clGraticuleLevel clLabelType].
        repeat split; intros ->; reflexivity.
    + apply IH.
Qed.

(** C8, as the code has it: the labels created by the second loop of
    [selectRenderables] follow the labels of the level-0 block, one per
    element of type Line in view and in the same order; the label of an
    element is a LatitudeLabel when the element's sector has zero
    latitude-delta (a parallel) and a LongitudeLabel when its latitude-delta
    is not zero (a meridian). *)
Theorem selectRenderables_tile_label_types {W : WorldWind} (fuel : nat) (this : t)
    (dc : DrawContext) (sel : Selection) (this' : t) :
  selectRenderables fuel this dc = Ok (sel, this') ->
  exists ges tileLabels,
    gridElements this' = Some ges /\
    createdLabels sel = snd (boundingLines this dc ges) ++ tileLabels /\
    Forall2 (fun ge cl =>
               (PrimFloat.eqb (deltaLatitude (GridElement.sector ge)) 0 = true ->
                clLabelType cl = GridElement.typeLatitudeLabel) /\
               (PrimFloat.eqb (deltaLatitude (GridElement.sector ge)) 0 = false ->
                clLabelType cl = GridElement.typeLongitudeLabel))
            (tileElementsInView dc ges) tileLabels.
Proof.
  intros H.
  apply selectRenderables_Ok in H as (ges & sel1 & Eg & _ & _ & _ & H1 & ->).
  exists ges, (createdLabels sel1). split; [exact Eg|]. split; [reflexivity|].
  apply selectTileElements_labels in H1 as [_ Hl].
  eapply Forall2_impl; [| exact Hl].
  intros ge cl (_ & _ & Hlat & Hlon). split; assumption.
Qed.

Lemma selectRenderables_tile_label_types_witness :
  exists sel this' ges,
    selectRenderables 20 level1Tile farView = Ok (sel, this') /\
    gridElements this' = Some ges /\
    Forall2 (fun ge cl =>
               (PrimFloat.eqb (deltaLatitude (GridElement.sector ge)) 0 = true ->
                clLabelType cl = GridElement.typeLatitudeLabel) /\
               (PrimFloat.eqb (deltaLatitude (GridElement.sector ge)) 0 = false ->
                clLabelType cl = GridElement.typeLongitudeLabel))
            (tileElementsInView farView ges) (createdLabels sel).
Proof.
  destruct (selectRenderables 20 level1Tile farView) as [[sel this']| |] eqn:E.
  - destruct (selectRenderables_tile_label_types 20 level1Tile farView sel this' E)
      as (ges & tileLabels & Eg & El & F).
    exists sel, this', ges. split; [reflexivity|]. split; [exact Eg|].
    change (createdLabels sel = tileLabels) in El. rewrite El. exact F.
  - vm_compute in E. discriminate E.
  - vm_compute in E. discriminate E.
Defined.

(** C8, as stated, fails on [level1Tile]: the first element the second loop
    emits is the meridian at longitude 1, whose sector has zero
    longitude-delta, and its label is a LongitudeLabel, not a LatitudeLabel;
    the tenth is the parallel at latitude 1, whose sector has zero
    latitude-delta, and its label is a LatitudeLabel, not a LongitudeLabel. *)
Lemma tile_label_types_counterexample :
  exists sel this' ges meridian parallel labelM labelP,
    selectRenderables 20 level1Tile farView = Ok (sel, this') /\
    gridElements this' = Some ges /\
    nth_error (tileElementsInView farView ges) 0 = Some meridian /\
    nth_error (createdLabels sel) 0 = Some labelM /\
    GridElement.type meridian = GridElement.typeLine /\
    PrimFloat.eqb (deltaLongitude (GridElement.sector meridian)) 0 = true /\
    clLabelType labelM = GridElement.typeLongitudeLabel /\
    clLabelType labelM <> GridElement.typeLatitudeLabel /\
    nth_error (tileElementsInView farView ges) 9 = Some parallel /\
    nth_error (createdLabels sel) 9 = Some labelP /\
    GridElement.type parallel = GridElement.typeLine /\
    PrimFloat.eqb (deltaLatitude (GridElement.sector parallel)) 0 = true /\
    clLabelType labelP = GridElement.typeLatitudeLabel /\
    clLabelType labelP <> GridElement.typeLongitudeLabel.
Proof.
  do 7 eexists.
  split; [vm_compute; reflexivity|].
  split; [reflexivity|].
  split; [vm_compute; reflexivity|].
  split; [reflexivity|].
  repeat split; try reflexivity; cbn; discriminate.
Qed.

(* ------------------------------------------------------------------ *)
(** ** What the code does where the description says otherwise *)

(** The early return of the level-0 block compares against
    [this.minCellSizePixels], which is [undefined]: the test never holds. *)
Lemma early_return_never_taken (size : float) :
  (size <? this_minCellSizePixels) = false.
Proof. unfold this_minCellSizePixels, undefinedAsNumber. apply ltb_nan_r. Qed.

(** The arrays returned by [selectRenderables] are built from the tile's
    own elements alone, whether or not the call went on into sub-tiles. *)
Lemma selectRenderables_own_elements {W : WorldWind} (fuel : nat) (this : t)
    (dc : DrawContext) (sel : Selection) (this' : t) :
  selectRenderables fuel this dc = Ok (sel, this') ->
  exists ges,
    gridElements this' = Some ges /\
    map fst (selectedPathRenderables sel)
      = map fst (fst (boundingLines this dc ges))
        ++ map GridElement.renderable (tileElementsInView dc ges) /\
    List.length (createdLabels sel)
      = (List.length (snd (boundingLines this dc ges))
         + List.length (tileElementsInView dc ges))%nat.
Proof.
  intros H.
  apply selectRenderables_Ok in H as (ges & sel1 & Eg & _ & _ & _ & H1 & ->).
  apply selectTileElements_labels in H1 as [Hp Hl].
  exists ges. split; [exact Eg|]. cbn [selectedPathRenderables createdLabels]. split.
  - rewrite map_app, Hp. reflexivity.
  - rewrite length_app, (Forall2_length Hl). reflexivity.
Qed.

(** A tile with cached elements whose cells are under the minimum size: the
    call returns without creating sub-tiles, and its lines are the bounding
    lines of the level-0 block followed by every element of type Line in
    view. *)
Lemma selectRenderables_small_cells {W : WorldWind} (fuel : nat) (this : t)
    (dc : DrawContext) (ges : list GridElement.t) :
  gridElements this = Some ges ->
  (getSizeInPixels this dc / nat2f (divisions this) <? minCellSizePixels) = true ->
  exists sel,
    selectRenderables (S fuel) this dc = Ok (sel, this) /\
    map fst (selectedPathRenderables sel)
      = map fst (fst (boundingLines this dc ges))
        ++ map GridElement.renderable (tileElementsInView dc ges).
Proof.
  intros Eg Hs.
  destruct (selectRenderables_returns fuel this dc ges Eg) as [sel E].
  { eapply ltb_trans; [exact Hs | reflexivity]. }
  exists sel. split; [exact E|].
  destruct (selectRenderables_own_elements _ _ _ _ _ E) as (ges' & Eg' & Hp & _).
  rewrite Eg in Eg'. injection Eg' as <-. exact Hp.
Qed.

(** C5, as the code has it: [level0Tile] seen through [farView] has cells
    of about 17 pixels, under the minimum of 40, yet the call goes on to the
    second loop: besides the 2 bounding lines it returns the 18 interior
    lines (type Line, tagged level 1).  No sub-tiles are created. *)
Theorem selectRenderables_level0_small_cells :
  (getSizeInPixels level0Tile farView / nat2f (divisions level0Tile) <? minCellSizePixels)
    = true /\
  exists sel this' ges,
    selectRenderables 20 level0Tile farView = Ok (sel, this') /\
    gridElements this' = Some ges /\
    subTiles this' = None /\
    List.length (fst (boundingLines level0Tile farView ges)) = 2%nat /\
    List.length (tileElementsInView farView ges) = 18%nat /\
    List.length (selectedPathRenderables sel) = 20%nat /\
    map snd (skipn 2 (selectedPathRenderables sel))
      = repeat (Some graticuleLatLonLevel1) 18.
Proof.
  split; [vm_compute; reflexivity|].
  do 3 eexists.
  split; [vm_compute; reflexivity|].
  split; [reflexivity|].
  repeat split; vm_compute; reflexivity.
Qed.

(** C2, as the code has it: [level0Tile] seen through [closeView] has cells
    of about 175 pixels, so the call creates the sub-tiles and recurses into
    the visible ones, among them [eastChild].  The call on [eastChild]
    returns 10 lines and 10 labels, half of them for longitudes above 10;
    the call on [level0Tile] returns its own 20 lines and 20 labels only,
    all for values below 10. *)
Theorem selectRenderables_drops_sub_tile_results :
  (getSizeInPixels level0Tile closeView / nat2f (divisions level0Tile)
     <? minCellSizePixels * 2) = false /\
  exists sel this' children child' selChild,
    selectRenderables 20 level0Tile closeView = Ok (sel, this') /\
    subTiles (createSubTiles level0Tile) = Some children /\
    nth_error children 1 = Some eastChild /\
    isInView eastChild closeView = Ok true /\
    selectRenderables 19 eastChild closeView = Ok (selChild, child') /\
    option_map (fun gts => nth_error gts 1) (subTiles this') = Some (Some child') /\
    List.length (selectedPathRenderables selChild) = 10%nat /\
    List.length (createdLabels selChild) = 10%nat /\
    existsb (fun cl => 10 <? clValue cl) (createdLabels selChild) = true /\
    List.length (selectedPathRenderables sel) = 20%nat /\
    List.length (createdLabels sel) = 20%nat /\
    forallb (fun cl => clValue cl <? 10) (createdLabels sel) = true.
Proof.
  split; [vm_compute; reflexivity|].
  do 5 eexists.
  split; [vm_compute; reflexivity|].
  split; [vm_compute; reflexivity|].
  split; [reflexivity|].
  split; [vm_compute; reflexivity|].
  split; [vm_compute; reflexivity|].
  repeat split; vm_compute; reflexivity.
Qed.

(** What a returning call of [addLabel] has done: nothing, and only for a
    label type that is neither LatitudeLabel nor LongitudeLabel. *)
Lemma addLabel_Ok {W : WorldWind} (this this' : GraticuleLayer.t)
    (value : float) (labelType : string) (graticuleLevel : option string)
    (resolution : float) (labelOffset : Position) :
  GraticuleLayer.addLabel this value labelType graticuleLevel resolution labelOffset
  = Ok this' ->
  this' = this /\
  labelType <> GridElement.typeLatitudeLabel /\
  labelType <> GridElement.typeLongitudeLabel.
Proof.
  unfold GraticuleLayer.addLabel, GraticuleLayer.contains.
  destruct (GraticuleLayer.makeAngleLabel this value resolution) as [angleLabel| |];
    cbn [bind]; try discriminate.
  destruct (String.eqb_spec labelType GridElement.typeLatitudeLabel) as [-> | Nlat];
    cbn [bind]; try discriminate.
  destruct (String.eqb_spec labelType GridElement.typeLongitudeLabel) as [-> | Nlon];
    cbn [bind]; try discriminate.
  intros [= <-]. repeat split; assumption.
Qed.

(** C3, as the code has it: the label arrays have no method [contains], so
    the first request for a latitude label, and likewise for a longitude
    label, makes [addLabel] throw a TypeError before any text is made; no
    request of either type is ever emitted.  A call of [addLabel] that
    returns was for another label type and has left the layer as it was. *)
Theorem addLabel_label_requests_throw :
  GraticuleLayer.addCreatedLabels clearedLayer [latitudeRequest]
  = Throw (TypeError "this.latitudeLabels.contains is not a function") /\
  GraticuleLayer.addCreatedLabels clearedLayer [longitudeRequest]
  = Throw (TypeError "this.latitudeLabels.contains is not a function") /\
  (forall (W : WorldWind) (this this' : GraticuleLayer.t) (value : float)
          (labelType : string) (graticuleLevel : option string) (resolution : float)
          (labelOffset : Position),
     GraticuleLayer.addLabel this value labelType graticuleLevel resolution labelOffset
     = Ok this' ->
     this' = this /\
     labelType <> GridElement.typeLatitudeLabel /\
     labelType <> GridElement.typeLongitudeLabel).
Proof.
  split; [vm_compute; reflexivity|].
  split; [vm_compute; reflexivity|].
  intros W this this' value labelType graticuleLevel resolution labelOffset H.
  exact (addLabel_Ok this this' value labelType graticuleLevel resolution labelOffset H).
Qed.

(** C7, as the code has it: [getGridSector] multiplies where the latitude
    line adds, so the longitudes of a cell are [-1800 * col] and
    [-1800 * col + 10].  The latitudes are those of the 10 degree rows, and
    a new cell tile has 10 divisions and level 0. *)
Theorem getGridSector_longitudes :
  LatLonGraticuleLayer.getGridSector 0 0 = mkSector (-90) (-80) (-0) 10 /\
  LatLonGraticuleLayer.getGridSector 0 1 = mkSector (-90) (-80) (-1800) (-1790) /\
  LatLonGraticuleLayer.getGridSector 17 35 = mkSector 80 90 (-63000) (-62990) /\
  sector (LatLonGraticuleLayer.newGridTile 0 1) = mkSector (-90) (-80) (-1800) (-1790) /\
  divisions (LatLonGraticuleLayer.newGridTile 0 1) = 10%nat /\
  level (LatLonGraticuleLayer.newGridTile 0 1) = 0%nat.
Proof.
  repeat split.
Qed.

(* ================================================================== *)
(** * Further properties of the tiles *)

(* ------------------------------------------------------------------ *)
(** ** Element kinds *)

(** X1: no element type counts both as a label and as a line. *)
Theorem isLabel_isLine_disjoint (ge : GridElement.t) :
  GridElement.isLabel ge && GridElement.isLine ge = false.
Proof.
  unfold GridElement.isLabel, GridElement.isLine.
  destruct (String.eqb_spec (GridElement.type ge) GridElement.typeGridZoneLabel) as [-> | _];
    [reflexivity|].
  destruct (String.eqb_spec (GridElement.type ge) GridElement.typeLongitudeLabel) as [-> | _];
    [reflexivity|].
  destruct (String.eqb_spec (GridElement.type ge) GridElement.typeLatitudeLabel) as [-> | _];
    reflexivity.
Qed.

(* ------------------------------------------------------------------ *)
(** ** Visibility of a tile *)

(** X2: a lat-lon tile is reported in view exactly when its box meets the
    frustum, the draw context carries no [projectionLimits] of its own, and
    the tile is a level-0 tile or its cells are not under the minimum size. *)
Theorem isInView_true_iff {W : WorldWind} (this : t) (dc : DrawContext) :
  isInView this dc = Ok true <->
  intersectsFrustum dc (sector this) = true /\
  dcProjectionLimits dc = None /\
  (level this = 0%nat \/
   (getSizeInPixels this dc / nat2f (divisions this) <? minCellSizePixels) = false).
Proof.
  unfold isInView, GraticuleGridTile.isInView.
  destruct (intersectsFrustum dc (sector this)); cbn [negb bind].
  - destruct (dcProjectionLimits dc) as [pl|]; cbn [negb bind].
    + split; [discriminate | intros (_ & [=] & _)].
    + destruct (Nat.eqb_spec (level this) 0) as [E0 | N0]; cbn [negb andb].
      * split; [intros _; repeat split; left; exact E0 | reflexivity].
      * destruct (_ <? _).
        -- split; [discriminate | intros (_ & _ & [E | [=]]); contradiction].
        -- split; [intros _; repeat split; right; reflexivity | reflexivity].
  - split; [discriminate | intros ([=] & _)].
Qed.

(** X3: the visibility test fails with a ReferenceError exactly when the
    tile's box meets the frustum and [dc.projectionLimits] is set; it never
    fails otherwise and never runs out of fuel. *)
Theorem isInView_throws_iff {W : WorldWind} (this : t) (dc : DrawContext) :
  (isInView this dc = Throw (ReferenceError "vs") <->
   intersectsFrustum dc (sector this) = true /\ dcProjectionLimits dc <> None) /\
  (forall e, isInView this dc = Throw e -> e = ReferenceError "vs") /\
  isInView this dc <> OutOfFuel.
Proof.
  unfold isInView, GraticuleGridTile.isInView.
  destruct (intersectsFrustum dc (sector this)); cbn [negb bind].
  - destruct (dcProjectionLimits dc) as [pl|]; cbn [negb bind].
    + repeat split; try discriminate; congruence.
    + destruct (negb (Nat.eqb (level this) 0) && _);
        (split; [split; [discriminate | intros [_ N]; contradiction] |
                 split; [discriminate | discriminate]]).
  - split; [split; [discriminate | intros [[=] _]] | split; discriminate].
Qed.

(* ------------------------------------------------------------------ *)
(** ** The elements of a tile *)

Lemma meridians_elements {W : WorldWind} (fuel : nat) (this : t) (step lon : float)
    (ms : list GridElement.t) :
  meridians fuel this step lon = Ok ms ->
  Forall (fun ge => elementOf this ge /\
                    (GridElement.type ge = GridElement.typeLine \/
                     GridElement.type ge = GridElement.typeLineWest)) ms.
Proof.
  revert lon ms. induction fuel as [|fuel IH]; intros lon ms; cbn [meridians];
    destruct (lon <? _); try discriminate; try (intros [= <-]; constructor).
  destruct (meridians fuel this step (lon + step)) as [rest| |] eqn:E;
    cbn [bind]; try discriminate.
  intros [= <-]. constructor; [| exact (IH _ _ E)].
  unfold elementOf; cbn.
  destruct (PrimFloat.eqb lon (minLongitude (sector this))); repeat split; auto.
Qed.

Lemma parallels_elements {W : WorldWind} (fuel : nat) (this : t) (step lat : float)
    (ps : list GridElement.t) :
  parallels fuel this step lat = Ok ps ->
  Forall (fun ge => elementOf this ge /\
                    (GridElement.type ge = GridElement.typeLine \/
                     GridElement.type ge = GridElement.typeLineSouth)) ps.
Proof.
  revert lat ps. induction fuel as [|fuel IH]; intros lat ps; cbn [parallels];
    destruct (lat <? _); try discriminate; try (intros [= <-]; constructor).
  destruct (parallels fuel this step (lat + step)) as [rest| |] eqn:E;
    cbn [bind]; try discriminate.
  intros [= <-]. constructor; [| exact (IH _ _ E)].
  unfold elementOf; cbn.
  destruct (PrimFloat.eqb lat (minLatitude (sector this))); repeat split; auto 6.
Qed.

(** The two loops end by returning or by running out of fuel. *)
Lemma meridians_no_throw {W : WorldWind} (fuel : nat) (this : t) (step lon : float)
    (e : JsError) :
  meridians fuel this step lon <> Throw e.
Proof.
  revert lon. induction fuel as [|fuel IH]; intros lon; cbn [meridians];
    destruct (lon <? _); try discriminate.
  specialize (IH (lon + step)).
  destruct (meridians fuel this step (lon + step)); cbn [bind]; congruence.
Qed.

Lemma parallels_no_throw {W : WorldWind} (fuel : nat) (this : t) (step lat : float)
    (e : JsError) :
  parallels fuel this step lat <> Throw e.
Proof.
  revert lat. induction fuel as [|fuel IH]; intros lat; cbn [parallels];
    destruct (lat <? _); try discriminate.
  specialize (IH (lat + step)).
  destruct (parallels fuel this step (lat + step)); cbn [bind]; congruence.
Qed.

Lemma createRenderables_no_throw {W : WorldWind} (fuel : nat) (this : t) (e : JsError) :
  createRenderables fuel this <> Throw e.
Proof.
  unfold createRenderables.
  pose proof (meridians_no_throw fuel this
    (deltaLatitude (sector this) / nat2f (divisions this))
    (minLongitude (sector this)
     + (if Nat.eqb (level this) 0 then 0
        else deltaLatitude (sector this) / nat2f (divisions this))) e) as Hm.
  destruct (meridians fuel this _ _) as [ms| |]; cbn [bind]; try congruence.
  pose proof (parallels_no_throw fuel this
    (deltaLatitude (sector this) / nat2f (divisions this))
    (minLatitude (sector this)
     + (if Nat.eqb (level this) 0 then 0
        else deltaLatitude (sector this) / nat2f (divisions this))) e) as Hp.
  destruct (parallels fuel this _ _) as [ps| |]; cbn [bind]; congruence.
Qed.

(** X4: [createRenderables] fills in the grid elements and leaves the rest of
    the tile alone; every element it makes is a line (never a label) whose
    path runs between the corners of its sector, a meridian or a parallel
    across the tile. *)
Theorem createRenderables_elements {W : WorldWind} (fuel : nat) (this this1 : t) :
  createRenderables fuel this = Ok this1 ->
  sector this1 = sector this /\ divisions this1 = divisions this /\
  level this1 = level this /\ subTiles this1 = subTiles this /\
  exists ges,
    gridElements this1 = Some ges /\
    Forall (fun ge => elementOf this ge /\
                      GridElement.isLine ge = true /\
                      GridElement.isLabel ge = false) ges.
Proof.
  unfold createRenderables.
  destruct (meridians fuel this _ _) as [ms| |] eqn:Em; cbn [bind]; try discriminate.
  destruct (parallels fuel this _ _) as [ps| |] eqn:Ep; cbn [bind]; try discriminate.
  intros [= <-]. cbn. repeat split. eexists. split; [reflexivity|].
  assert (forall ge, elementOf this ge ->
            elementOf this ge /\ GridElement.isLine ge = true
            /\ GridElement.isLabel ge = false) as Hkind.
  { intros ge H. split; [exact H|].
    destruct H as ([T | [T | [T | T]]] & _);
      unfold GridElement.isLine, GridElement.isLabel; rewrite T; split; reflexivity. }
  apply meridians_elements in Em. apply parallels_elements in Ep.
  repeat rewrite Forall_app. repeat split.
  - eapply Forall_impl; [| exact Em]. intros ge [H _]. exact (Hkind ge H).
  - eapply Forall_impl; [| exact Ep]. intros ge [H _]. exact (Hkind ge H).
  - unfold northLine. destruct (PrimFloat.eqb (maxLatitude (sector this)) 90);
      constructor; [| constructor].
    apply Hkind. unfold elementOf; cbn. repeat split; auto.
Qed.

Lemma createRenderables_elements_witness :
  exists this1 ges,
    createRenderables 20 level1Tile = Ok this1 /\
    gridElements this1 = Some ges /\
    Forall (fun ge => GridElement.isLine ge = true) ges.
Proof.
  destruct (createRenderables 20 level1Tile) as [this1| |] eqn:E.
  - destruct (createRenderables_elements 20 level1Tile this1 E)
      as (_ & _ & _ & _ & ges & Eg & F).
    exists this1, ges. split; [reflexivity|]. split; [exact Eg|].
    eapply Forall_impl; [| exact F]. intros ge (_ & H & _). exact H.
  - vm_compute in E. discriminate E.
  - vm_compute in E. discriminate E.
Defined.

(** X5: a tile gets a north line exactly when its sector ends at latitude
    90; the north line then comes last, along the tile's top edge, with
    value 90. *)
Theorem createRenderables_north_line {W : WorldWind} (fuel : nat) (this this1 : t)
    (ges : list GridElement.t) :
  createRenderables fuel this = Ok this1 ->
  gridElements this1 = Some ges ->
  existsb (fun ge => String.eqb (GridElement.type ge) GridElement.typeLineNorth) ges
    = PrimFloat.eqb (maxLatitude (sector this)) 90 /\
  (PrimFloat.eqb (maxLatitude (sector this)) 90 = true ->
   exists front north,
     ges = front ++ [north] /\
     GridElement.type north = GridElement.typeLineNorth /\
     GridElement.value north = 90 /\
     GridElement.sector north
       = mkSector 90 90 (minLongitude (sector this)) (maxLongitude (sector this))).
Proof.
  unfold createRenderables.
  destruct (meridians fuel this _ _) as [ms| |] eqn:Em; cbn [bind]; try discriminate.
  destruct (parallels fuel this _ _) as [ps| |] eqn:Ep; cbn [bind]; try discriminate.
  intros [= <-]. cbn. intros [= <-].
  apply meridians_elements in Em. apply parallels_elements in Ep.
  assert (forall l : list GridElement.t,
            Forall (fun ge => GridElement.type ge <> GridElement.typeLineNorth) l ->
            existsb (fun ge => String.eqb (GridElement.type ge) GridElement.typeLineNorth) l
            = false) as Hnone.
  { intros l F. induction F as [|ge l Hge _ IH]; cbn; [reflexivity|].
    rewrite IH, orb_false_r. apply String.eqb_neq. exact Hge. }
  split.
  - rewrite !existsb_app, Hnone, Hnone; cbn [orb].
    + unfold northLine. destruct (PrimFloat.eqb (maxLatitude (sector this)) 90); reflexivity.
    + eapply Forall_impl; [| exact Ep]. intros ge [_ [T | T]]; rewrite T; discriminate.
    + eapply Forall_impl; [| exact Em]. intros ge [_ [T | T]]; rewrite T; discriminate.
  - intros E90. unfold northLine. rewrite E90.
    eexists (ms ++ ps), _. rewrite <- app_assoc. split; [reflexivity|].
    cbn. repeat split.
Qed.

Lemma createRenderables_north_line_witness :
  exists this1 ges,
    createRenderables 20 (LatLonGraticuleGridTile.new (mkSector 80 90 0 10) 10 0) = Ok this1 /\
    gridElements this1 = Some ges /\
    existsb (fun ge => String.eqb (GridElement.type ge) GridElement.typeLineNorth) ges = true.
Proof.
  destruct (createRenderables 20 (LatLonGraticuleGridTile.new (mkSector 80 90 0 10) 10 0))
    as [this1| |] eqn:E.
  - destruct (createRenderables_fields 20 _ this1 E) as [ges Eg].
    assert (gridElements this1 = Some ges) as Eg' by (rewrite Eg; reflexivity).
    exists this1, ges. split; [reflexivity|]. split; [exact Eg'|].
    rewrite (proj1 (createRenderables_north_line 20 _ this1 ges E Eg')). reflexivity.
  - vm_compute in E. discriminate E.
  - vm_compute in E. discriminate E.
Defined.

(* ------------------------------------------------------------------ *)
(** ** What a call of selectRenderables leaves behind *)

Lemma forOf_Ok {A B : Type} (body : A -> Outcome B) (l : list A) (l' : list B) :
  forOf body l = Ok l' -> Forall2 (fun a b => body a = Ok b) l l'.
Proof.
  revert l'. induction l as [|a l IH]; intros l'; cbn [forOf].
  - intros [= <-]. constructor.
  - destruct (body a) as [b| |] eqn:Eb; cbn [bind]; try discriminate.
    destruct (forOf body l) as [bs| |]; cbn [bind]; try discriminate.
    intros [= <-]. constructor; [exact Eb | apply IH; reflexivity].
Qed.

(** A returning call, step by step: the elements are taken from the cache
    or created; below the recursion threshold the tile is returned as it
    then is, otherwise its sub-tiles (cached or created) are visited. *)
Lemma selectRenderables_steps {W : WorldWind} (fuel : nat) (this : t) (dc : DrawContext)
    (sel : Selection) (this' : t) :
  selectRenderables (S fuel) this dc = Ok (sel, this') ->
  exists this1 ges,
    (gridElements this = Some ges /\ this1 = this \/
     gridElements this = None /\ createRenderables fuel this = Ok this1) /\
    gridElements this1 = Some ges /\
    ((getSizeInPixels this dc / nat2f (divisions this) <? minCellSizePixels * 2) = true /\
     this' = this1
     \/
     (getSizeInPixels this dc / nat2f (divisions this) <? minCellSizePixels * 2) = false /\
     exists gts gts',
       (subTiles this = Some gts \/
        subTiles this = None /\ subTiles (createSubTiles this) = Some gts) /\
       Forall2 (fun gt gt' => visitSubTile fuel dc gt = Ok gt') gts gts' /\
       this' = mk (sector this) (divisions this) (level this) (Some ges) (Some gts')).
Proof.
  cbn [selectRenderables].
  destruct (match gridElements this with
            | Some _ => Ok this
            | None => createRenderables fuel this
            end) as [this1| |] eqn:E1; cbn [bind]; try discriminate.
  assert (exists ges,
            (gridElements this = Some ges /\ this1 = this \/
             gridElements this = None /\ createRenderables fuel this = Ok this1) /\
            this1 = mk (sector this) (divisions this) (level this) (Some ges) (subTiles this))
    as (ges & Hfrom & E).
  { destruct (gridElements this) as [ges|] eqn:Eg.
    - injection E1 as <-. exists ges. split; [left; auto|].
      destruct this; cbn in *. congruence.
    - destruct (createRenderables_fields fuel this this1 E1) as [ges ->].
      exists ges. split; [right; auto | reflexivity]. }
  subst this1. cbn [gridElements].
  unfold this_minCellSizePixels, undefinedAsNumber.
  rewrite ltb_nan_r, andb_false_r.
  destruct (selectTileElements _ dc _ _ ges) as [sel1| |]; cbn [bind]; try discriminate.
  unfold getSizeInPixels. cbn [sector divisions subTiles].
  destruct (_ <? _).
  - intros [= _ <-]. eexists _, ges. split; [exact Hfrom|]. split; [reflexivity|].
    left. split; reflexivity.
  - destruct (forOf _ _) as [gts'| |] eqn:Ef; cbn [bind]; try discriminate.
    intros [= _ <-]. eexists _, ges. split; [exact Hfrom|]. split; [reflexivity|].
    right. split; [reflexivity|].
    apply forOf_Ok in Ef.
    destruct (subTiles this) as [gts|] eqn:Es; cbn [subTiles] in Ef |- *.
    + exists gts, gts'. split; [left; reflexivity|]. split; [exact Ef | reflexivity].
    + eexists _, gts'. split; [right; split; reflexivity|].
      split; [exact Ef | reflexivity].
Qed.

(** The tile a returning call leaves: the same sector, divisions and level,
    with grid elements in place; cached elements are the ones kept. *)
Lemma selectRenderables_result_tile {W : WorldWind} (fuel : nat) (this : t)
    (dc : DrawContext) (sel : Selection) (this' : t) :
  selectRenderables fuel this dc = Ok (sel, this') ->
  exists ges,
    this' = mk (sector this) (divisions this) (level this) (Some ges) (subTiles this') /\
    (forall cached, gridElements this = Some cached -> cached = ges).
Proof.
  destruct fuel as [|fuel]; [discriminate|]. intros H.
  apply selectRenderables_steps in H
    as (this1 & ges & Hfrom & Eg & [[_ ->] | (_ & gts & gts' & _ & _ & ->)]).
  - exists ges. split.
    + destruct Hfrom as [[Ec ->] | [_ Ecr]].
      * destruct this; cbn in *. rewrite Ec. reflexivity.
      * destruct (createRenderables_fields fuel this this1 Ecr) as [ges' ->].
        cbn in Eg |- *. injection Eg as ->. reflexivity.
    + intros cached Ec. destruct Hfrom as [[Ec' _] | [En _]]; congruence.
  - exists ges. split; [reflexivity|].
    intros cached Ec. destruct Hfrom as [[Ec' _] | [En _]]; congruence.
Qed.

(** X6: a returning call of [selectRenderables] never changes the tile's
    sector, divisions or level, always leaves grid elements in place, and
    keeps elements that were already there instead of creating them anew. *)
Theorem selectRenderables_keeps_tile {W : WorldWind} (fuel : nat) (this : t)
    (dc : DrawContext) (sel : Selection) (this' : t) :
  selectRenderables fuel this dc = Ok (sel, this') ->
  sector this' = sector this /\ divisions this' = divisions this /\
  level this' = level this /\
  gridElements this' <> None /\
  (forall cached, gridElements this = Some cached -> gridElements this' = Some cached).
Proof.
  intros H. apply selectRenderables_result_tile in H as (ges & -> & Hc). cbn.
  repeat split; try discriminate.
  intros cached Ec. rewrite (Hc cached Ec). reflexivity.
Qed.

Lemma selectRenderables_keeps_tile_witness :
  exists sel this',
    selectRenderables 20 level0Tile closeView = Ok (sel, this') /\
    sector this' = originCell /\ divisions this' = 10%nat /\ level this' = 0%nat.
Proof.
  destruct (selectRenderables 20 level0Tile closeView) as [[sel this']| |] eqn:E.
  - exists sel, this'. split; [reflexivity|].
    destruct (selectRenderables_keeps_tile 20 level0Tile closeView sel this' E)
      as (Hs & Hd & Hl & _).
    repeat split; assumption.
  - vm_compute in E. discriminate E.
  - vm_compute in E. discriminate E.
Defined.

(** X7: selecting again from the tile a call has left, in the same view,
    returns the same arrays. *)
Theorem selectRenderables_again {W : WorldWind} (fuel fuel' : nat) (this : t)
    (dc : DrawContext) (sel sel' : Selection) (this' this'' : t) :
  selectRenderables fuel this dc = Ok (sel, this') ->
  selectRenderables fuel' this' dc = Ok (sel', this'') ->
  sel' = sel.
Proof.
  intros H1 H2.
  pose proof (selectRenderables_result_tile _ _ _ _ _ H2) as (ges2 & E2 & Hc).
  apply selectRenderables_Ok in H1 as (ges1 & sel1 & Eg1 & Es & Ed & El & Ht1 & ->).
  apply selectRenderables_Ok in H2 as (ges2' & sel2 & Eg2 & _ & _ & _ & Ht2 & ->).
  assert (ges2' = ges1) as ->.
  { rewrite E2 in Eg2. cbn in Eg2. injection Eg2 as <-. symmetry. exact (Hc ges1 Eg1). }
  rewrite (selectTileElements_sector this' this) in Ht2 by exact Es.
  rewrite Es, Ed, Ht1 in Ht2. injection Ht2 as <-.
  rewrite (boundingLines_fields this' this) by assumption.
  reflexivity.
Qed.

Lemma selectRenderables_again_witness :
  exists sel this' this'',
    selectRenderables 20 level0Tile closeView = Ok (sel, this') /\
    selectRenderables 20 this' closeView = Ok (sel, this'').
Proof.
  destruct (selectRenderables 20 level0Tile closeView) as [[sel this']| |] eqn:E1;
    [| vm_compute in E1; discriminate E1 | vm_compute in E1; discriminate E1].
  destruct (selectRenderables 20 this' closeView) as [[sel' this'']| |] eqn:E2.
  - exists sel, this', this''. split; [reflexivity|].
    rewrite (selectRenderables_again 20 20 level0Tile closeView sel sel' this' this'' E1 E2)
      in E2.
    exact E2.
  - vm_compute in E1. injection E1 as _ <-. vm_compute in E2. discriminate E2.
  - vm_compute in E1. injection E1 as _ <-. vm_compute in E2. discriminate E2.
Defined.

(** X8: when the tile's cells are under twice the minimum size, a returning
    call leaves the sub-tiles as they were: none are created, none are
    visited or cleared. *)
Theorem selectRenderables_below_threshold {W : WorldWind} (fuel : nat) (this : t)
    (dc : DrawContext) (sel : Selection) (this' : t) :
  (getSizeInPixels this dc / nat2f (divisions this) <? minCellSizePixels * 2) = true ->
  selectRenderables fuel this dc = Ok (sel, this') ->
  subTiles this' = subTiles this.
Proof.
  intros Hsmall H. destruct fuel as [|fuel]; [discriminate|].
  apply selectRenderables_steps in H
    as (this1 & ges & Hfrom & _ & [[_ ->] | (Hbig & _)]).
  - destruct Hfrom as [[_ ->] | [_ Ecr]]; [reflexivity|].
    destruct (createRenderables_fields fuel this this1 Ecr) as [ges' ->]. reflexivity.
  - rewrite Hsmall in Hbig. discriminate.
Qed.

Lemma selectRenderables_below_threshold_witness :
  exists sel this',
    selectRenderables 20 level0Tile farView = Ok (sel, this') /\
    subTiles this' = None.
Proof.
  destruct (selectRenderables 20 level0Tile farView) as [[sel this']| |] eqn:E.
  - exists sel, this'. split; [reflexivity|].
    apply (selectRenderables_below_threshold 20 level0Tile farView sel this');
      [vm_compute; reflexivity | exact E].
  - vm_compute in E. discriminate E.
  - vm_compute in E. discriminate E.
Defined.

(** X9: when the tile's cells are at least twice the minimum size, a
    returning call leaves one sub-tile for each sub-tile it found (cached,
    or else created), with the same sector, divisions and level; a sub-tile
    that is not in view is left without elements and without sub-tiles, and
    a sub-tile in view is left with its elements in place. *)
Theorem selectRenderables_sub_tiles {W : WorldWind} (fuel : nat) (this : t)
    (dc : DrawContext) (sel : Selection) (this' : t) :
  (getSizeInPixels this dc / nat2f (divisions this) <? minCellSizePixels * 2) = false ->
  selectRenderables fuel this dc = Ok (sel, this') ->
  exists gts gts',
    (subTiles this = Some gts \/
     subTiles this = None /\ subTiles (createSubTiles this) = Some gts) /\
    subTiles this' = Some gts' /\
    Forall2 (fun gt gt' =>
               sector gt' = sector gt /\ divisions gt' = divisions gt /\
               level gt' = level gt /\
               (isInView gt dc = Ok false ->
                gridElements gt' = None /\ subTiles gt' = None) /\
               (isInView gt dc = Ok true -> gridElements gt' <> None))
            gts gts'.
Proof.
  intros Hbig H. destruct fuel as [|fuel]; [discriminate|].
  apply selectRenderables_steps in H
    as (this1 & ges & _ & _ & [[Hsmall _] | (_ & gts & gts' & Hgts & Hvisit & ->)]).
  { rewrite Hbig in Hsmall. discriminate. }
  exists gts, gts'. split; [exact Hgts|]. split; [reflexivity|].
  eapply Forall2_impl; [| exact Hvisit].
  intros gt gt'. unfold visitSubTile.
  destruct (isInView gt dc) as [[|]| |]; cbn [bind]; try discriminate.
  - destruct (selectRenderables fuel gt dc) as [[s r]| |] eqn:Er; cbn [bind snd];
      try discriminate.
    intros [= <-].
    apply selectRenderables_result_tile in Er as (g & -> & _). cbn.
    repeat split; try discriminate.
  - intros [= <-]. cbn. repeat split; discriminate.
Qed.

Lemma selectRenderables_sub_tiles_witness :
  exists sel this' gts',
    selectRenderables 20 level0Tile closeView = Ok (sel, this') /\
    subTiles this' = Some gts' /\
    List.length gts' = 100%nat.
Proof.
  destruct (selectRenderables 20 level0Tile closeView) as [[sel this']| |] eqn:E.
  - destruct (selectRenderables_sub_tiles 20 level0Tile closeView sel this')
      as (gts & gts' & [Hc | [_ Hn]] & Es & F);
      [vm_compute; reflexivity | exact E | discriminate Hc |].
    exists sel, this', gts'. split; [reflexivity|]. split; [exact Es|].
    rewrite <- (Forall2_length F). injection Hn as <-. reflexivity.
  - vm_compute in E. discriminate E.
  - vm_compute in E. discriminate E.
Defined.

(* ------------------------------------------------------------------ *)
(** ** Lines and their labels *)

Lemma selectBoundingLines_labels {W : WorldWind} (this : t) (dc : DrawContext)
    (graticuleLevel : option string) (labelOffset : Position) (ges : list GridElement.t) :
  map fst (fst (selectBoundingLines this dc graticuleLevel labelOffset ges))
    = map GridElement.renderable (boundingElementsInView dc ges) /\
  map snd (fst (selectBoundingLines this dc graticuleLevel labelOffset ges))
    = map clGraticuleLevel (snd (selectBoundingLines this dc graticuleLevel labelOffset ges)) /\
  Forall2 (fun ge cl =>
             clValue cl = GridElement.value ge /\
             clGraticuleLevel cl = graticuleLevel /\
             clDeltaLatitude cl = deltaLatitude (sector this) /\
             clLabelOffset cl = labelOffset /\
             (GridElement.type ge = GridElement.typeLineWest ->
              clLabelType cl = GridElement.typeLongitudeLabel) /\
             (GridElement.type ge = GridElement.typeLineSouth \/
              GridElement.type ge = GridElement.typeLineNorth ->
              clLabelType cl = GridElement.typeLatitudeLabel))
          (boundingElementsInView dc ges)
          (snd (selectBoundingLines this dc graticuleLevel labelOffset ges)).
Proof.
  unfold boundingElementsInView.
  induction ges as [|ge ges (IHp & IHl & IHf)]; cbn [selectBoundingLines filter].
  - repeat split. constructor.
  - destruct (selectBoundingLines this dc graticuleLevel labelOffset ges) as [paths labels].
    cbn [fst snd] in *.
    destruct (GridElement.isInView ge dc None && _); cbn [fst snd map].
    + rewrite IHp, IHl. repeat split. constructor; [| exact IHf].
      cbn. repeat split.
      * intros ->. reflexivity.
      * intros [-> | ->]; reflexivity.
    + repeat split; assumption.
Qed.

Lemma selectTileElements_aligned {W : WorldWind} (this : t) (dc : DrawContext)
    (graticuleLevel : option string) (labelOffset : Position)
    (ges : list GridElement.t) (sel : Selection) :
  selectTileElements this dc graticuleLevel labelOffset ges = Ok sel ->
  map snd (selectedPathRenderables sel) = map clGraticuleLevel (createdLabels sel) /\
  Forall (fun cl => clGraticuleLevel cl = graticuleLevel /\
                    clDeltaLatitude cl = deltaLatitude (sector this) /\
                    clLabelOffset cl = labelOffset) (createdLabels sel).
Proof.
  revert sel. induction ges as [|ge ges IH]; intros sel; cbn [selectTileElements].
  - intros [= <-]. split; [reflexivity | constructor].
  - destruct (GridElement.isInView ge dc None
              && String.eqb (GridElement.type ge) GridElement.typeLine) eqn:E.
    + apply andb_prop in E as [_ E]. rewrite (isLine_typeLine ge E). cbn [bind fst snd].
      destruct (selectTileElements this dc graticuleLevel labelOffset ges) as [rest| |];
        cbn [bind]; try discriminate.
      intros [= <-]. destruct (IH rest eq_refl) as [IHp IHf]. cbn. split.
      * rewrite IHp. reflexivity.
      * constructor; [repeat split | exact IHf].
    + apply IH.
Qed.

(** X10: in the arrays a call returns, lines and labels go in pairs: the
    i-th label carries the graticule level of the i-th line, and every
    label carries the tile's latitude extent and the eye position of the
    view. *)
Theorem selectRenderables_lines_and_labels {W : WorldWind} (fuel : nat) (this : t)
    (dc : DrawContext) (sel : Selection) (this' : t) :
  selectRenderables fuel this dc = Ok (sel, this') ->
  List.length (selectedPathRenderables sel) = List.length (createdLabels sel) /\
  map snd (selectedPathRenderables sel) = map clGraticuleLevel (createdLabels sel) /\
  Forall (fun cl => clDeltaLatitude cl = deltaLatitude (sector this) /\
                    clLabelOffset cl = eyePosition dc /\
                    (clGraticuleLevel cl = getLevel (deltaLatitude (sector this)) \/
                     clGraticuleLevel cl
                       = getLevel (deltaLatitude (sector this) / nat2f (divisions this))))
         (createdLabels sel).
Proof.
  intros H.
  apply selectRenderables_Ok in H as (ges & sel1 & _ & _ & _ & _ & H1 & ->).
  apply selectTileElements_aligned in H1 as [Hp Hf].
  cbn [selectedPathRenderables createdLabels].
  assert (map snd (fst (boundingLines this dc ges))
          = map clGraticuleLevel (snd (boundingLines this dc ges)) /\
          Forall (fun cl => clDeltaLatitude cl = deltaLatitude (sector this) /\
                            clLabelOffset cl = eyePosition dc /\
                            clGraticuleLevel cl = getLevel (deltaLatitude (sector this)))
                 (snd (boundingLines this dc ges))) as [Hbp Hbf].
  { unfold boundingLines. destruct (Nat.eqb (level this) 0); [| split; [reflexivity | constructor]].
    destruct (selectBoundingLines_labels this dc (getLevel (deltaLatitude (sector this)))
                (computeLabelOffset this dc) ges) as (_ & Hl & Hf2).
    split; [exact Hl|].
    clear - Hf2. induction Hf2 as [|ge cl l l' (_ & Hg & Hd & Ho & _) _ IH]; constructor.
    - repeat split; assumption.
    - exact IH. }
  assert (map snd (fst (boundingLines this dc ges) ++ selectedPathRenderables sel1)
          = map clGraticuleLevel (snd (boundingLines this dc ges) ++ createdLabels sel1))
    as Hmap by (rewrite !map_app, Hbp, Hp; reflexivity).
  split; [| split; [exact Hmap|]].
  - rewrite <- (length_map snd), Hmap, length_map. reflexivity.
  - apply Forall_app. split.
    + eapply Forall_impl; [| exact Hbf]. intros cl (Hd & Ho & Hg). auto.
    + eapply Forall_impl; [| exact Hf]. intros cl (Hg & Hd & Ho). auto.
Qed.

Lemma selectRenderables_lines_and_labels_witness :
  exists sel this',
    selectRenderables 20 level0Tile farView = Ok (sel, this') /\
    map snd (selectedPathRenderables sel) = map clGraticuleLevel (createdLabels sel).
Proof.
  destruct (selectRenderables 20 level0Tile farView) as [[sel this']| |] eqn:E.
  - exists sel, this'. split; [reflexivity|].
    exact (proj1 (proj2 (selectRenderables_lines_and_labels 20 level0Tile farView sel this' E))).
  - vm_compute in E. discriminate E.
  - vm_compute in E. discriminate E.
Defined.

(** X11: on a level-0 tile the created labels start with one label per
    south, north or west line in view, in order: a LongitudeLabel for the
    west line and a LatitudeLabel for a south or north line, with the line's
    value and the level of the tile's own latitude extent; the labels of the
    second loop follow.  On a deeper tile there are no such labels. *)
Theorem selectRenderables_bounding_labels {W : WorldWind} (fuel : nat) (this : t)
    (dc : DrawContext) (sel : Selection) (this' : t) :
  selectRenderables fuel this dc = Ok (sel, this') ->
  exists ges boundingLabels tileLabels,
    gridElements this' = Some ges /\
    createdLabels sel = boundingLabels ++ tileLabels /\
    List.length tileLabels = List.length (tileElementsInView dc ges) /\
    (level this <> 0%nat -> boundingLabels = []) /\
    (level this = 0%nat ->
     Forall2 (fun ge cl =>
                clValue cl = GridElement.value ge /\
                clGraticuleLevel cl = getLevel (deltaLatitude (sector this)) /\
                (GridElement.type ge = GridElement.typeLineWest ->
                 clLabelType cl = GridElement.typeLongitudeLabel) /\
                (GridElement.type ge = GridElement.typeLineSouth \/
                 GridElement.type ge = GridElement.typeLineNorth ->
                 clLabelType cl = GridElement.typeLatitudeLabel))
             (boundingElementsInView dc ges) boundingLabels).
Proof.
  intros H.
  apply selectRenderables_Ok in H as (ges & sel1 & Eg & _ & _ & _ & H1 & ->).
  exists ges, (snd (boundingLines this dc ges)), (createdLabels sel1).
  split; [exact Eg|]. split; [reflexivity|].
  apply selectTileElements_labels in H1 as [_ Hl].
  split; [symmetry; exact (Forall2_length Hl)|].
  unfold boundingLines. split.
  - intros N. destruct (Nat.eqb_spec (level this) 0); [contradiction | reflexivity].
  - intros ->. cbn [Nat.eqb].
    destruct (selectBoundingLines_labels this dc (getLevel (deltaLatitude (sector this)))
                (computeLabelOffset this dc) ges) as (_ & _ & Hf).
    eapply Forall2_impl; [| exact Hf].
    intros ge cl (Hv & Hg & _ & _ & Hw & Hs). auto.
Qed.

Lemma selectRenderables_bounding_labels_witness :
  exists sel this' boundingLabels tileLabels,
    selectRenderables 20 level0Tile farView = Ok (sel, this') /\
    createdLabels sel = boundingLabels ++ tileLabels /\
    List.length tileLabels = 18%nat.
Proof.
  destruct (selectRenderables 20 level0Tile farView) as [[sel this']| |] eqn:E.
  - destruct (selectRenderables_bounding_labels 20 level0Tile farView sel this' E)
      as (ges & bl & tl & Eg & El & Hlen & _).
    exists sel, this', bl, tl. split; [reflexivity|]. split; [exact El|].
    rewrite Hlen. vm_compute in E. injection E as _ <-. injection Eg as <-.
    vm_compute. reflexivity.
  - vm_compute in E. discriminate E.
  - vm_compute in E. discriminate E.
Defined.

(* ------------------------------------------------------------------ *)
(** ** Calls that do not return *)

Lemma meridians_never_end {W : WorldWind} (fuel : nat) (this : t) (step lon : float) :
  (lon <? maxLongitude (sector this) - step / 2) = true ->
  lon + step = lon ->
  meridians fuel this step lon = OutOfFuel.
Proof.
  intros Hc Hs. induction fuel as [|fuel IH]; cbn [meridians]; rewrite Hc.
  - reflexivity.
  - rewrite Hs, IH. reflexivity.
Qed.

(** X12: when the first meridian lies inside the tile and adding the step to
    its longitude gives the same longitude again (a step of zero, or one too
    small to count), the loop over the meridians never ends: whatever the
    fuel, neither [createRenderables] nor a first [selectRenderables] on the
    tile returns. *)
Theorem createRenderables_never_ends {W : WorldWind} (this : t) (dc : DrawContext)
    (fuel : nat) :
  let step := deltaLatitude (sector this) / nat2f (divisions this) in
  let first := minLongitude (sector this) + (if Nat.eqb (level this) 0 then 0 else step) in
  (first <? maxLongitude (sector this) - step / 2) = true ->
  first + step = first ->
  createRenderables fuel this = OutOfFuel /\
  (gridElements this = None -> selectRenderables fuel this dc = OutOfFuel).
Proof.
  intros step first Hc Hs.
  assert (forall f, createRenderables f this = OutOfFuel) as Hcr.
  { intros f. unfold createRenderables.
    fold step. fold first. rewrite (meridians_never_end f this step first Hc Hs).
    reflexivity. }
  split; [apply Hcr|].
  intros Eg. destruct fuel as [|fuel]; [reflexivity|].
  cbn [selectRenderables]. rewrite Eg, Hcr. reflexivity.
Qed.

Lemma createRenderables_never_ends_witness :
  createRenderables 1000 flatTile = OutOfFuel /\
  selectRenderables 1000 flatTile farView = OutOfFuel.
Proof.
  destruct (createRenderables_never_ends flatTile farView 1000) as [Hc Hs];
    [reflexivity | reflexivity |].
  split; [exact Hc | apply Hs; reflexivity].
Defined.

Lemma subdivideSector_head (this : t) (n : nat) :
  divisions this = S n ->
  exists rest,
    subdivideSector this =
    mkSector (minLatitude (sector this) + deltaLatitude (sector this) * 0)
             (minLatitude (sector this) + deltaLatitude (sector this) * 0
              + deltaLatitude (sector this))
             (minLongitude (sector this) + deltaLongitude (sector this) * 0)
             (minLongitude (sector this) + deltaLongitude (sector this) * 0
              + deltaLongitude (sector this)) :: rest.
Proof.
  intros Hd. unfold subdivideSector. rewrite Hd. cbn [seq flat_map map app].
  eexists. reflexivity.
Qed.

Lemma isInView_deeper_tile {W : WorldWind} (this : t) (dc : DrawContext) :
  intersectsFrustum dc (sector this) = true ->
  dcProjectionLimits dc = None ->
  (getSizeInPixels this dc / nat2f (divisions this) <? minCellSizePixels * 2) = false ->
  isInView this dc = Ok true.
Proof.
  intros Hf Hp Hbig. unfold isInView, GraticuleGridTile.isInView.
  rewrite Hf, Hp. cbn [negb bind].
  destruct (_ <? minCellSizePixels) eqn:E.
  - rewrite (ltb_trans _ _ (minCellSizePixels * 2) E eq_refl) in Hbig. discriminate.
  - rewrite andb_false_r. reflexivity.
Qed.

(** X13: take a sector whose first sub-sector, as [subdivideSector] computes
    it, is the sector itself, seen in a view where it meets the frustum and
    its cells are at least twice the minimum size for both 6 and 10
    divisions.  On a new tile with that sector, [selectRenderables] recurses
    into a first sub-tile that is again such a tile, one level down: the
    call does not return, whatever the fuel. *)
Theorem selectRenderables_never_ends {W : WorldWind} (dc : DrawContext) (s : Sector)
    (fuel div lev : nat) :
  let size := deltaLatitude s * DEGREES_TO_RADIANS
              / pixelSizeAtDistance dc (distanceToCentroid dc s) in
  mkSector (minLatitude s + deltaLatitude s * 0)
           (minLatitude s + deltaLatitude s * 0 + deltaLatitude s)
           (minLongitude s + deltaLongitude s * 0)
           (minLongitude s + deltaLongitude s * 0 + deltaLongitude s) = s ->
  intersectsFrustum dc s = true ->
  dcProjectionLimits dc = None ->
  (size / nat2f 6 <? minCellSizePixels * 2) = false ->
  (size / nat2f 10 <? minCellSizePixels * 2) = false ->
  div = 6%nat \/ div = 10%nat ->
  selectRenderables fuel (LatLonGraticuleGridTile.new s div lev) dc = OutOfFuel.
Proof.
  intros size Hfirst Hf Hp H6 H10.
  revert div lev. induction fuel as [|fuel IH]; intros div lev Hd;
    [reflexivity|].
  assert ((size / nat2f div <? minCellSizePixels * 2) = false) as Hbig
    by (destruct Hd as [-> | ->]; assumption).
  change (LatLonGraticuleGridTile.new s div lev) with (mk s div lev None None).
  cbn [selectRenderables gridElements].
  destruct (createRenderables fuel (mk s div lev None None)) as [this1|e|] eqn:Ecr;
    cbn [bind]; [| destruct (createRenderables_no_throw _ _ _ Ecr) | reflexivity].
  destruct (createRenderables_fields _ _ _ Ecr) as [ges ->].
  change (set_gridElements (mk s div lev None None) (Some ges))
    with (mk s div lev (Some ges) None).
  cbn [gridElements sector divisions level subTiles].
  unfold this_minCellSizePixels, undefinedAsNumber. rewrite ltb_nan_r, andb_false_r.
  destruct (selectTileElements _ dc _ _ ges) as [sel1|e|] eqn:E1; cbn [bind];
    try (match type of E1 with
         | selectTileElements ?a ?b ?c ?d ?e = _ =>
           destruct (selectTileElements_returns a b c d e) as [x Hx];
           rewrite Hx in E1; discriminate E1
         end).
  unfold getSizeInPixels at 1. cbn [sector divisions]. fold size. rewrite Hbig.
  unfold createSubTiles. cbn [set_subTiles subTiles level].
  destruct (subdivideSector_head (mk s div lev (Some ges) None)
              (Nat.pred div)) as [rest Hhead].
  { destruct Hd as [-> | ->]; reflexivity. }
  cbn [sector] in Hhead. rewrite Hfirst in Hhead. rewrite Hhead.
  cbn [map forOf].
  rewrite isInView_deeper_tile.
  - cbn [bind]. unfold LatLonGraticuleGridTile.new in IH. rewrite IH; [reflexivity|].
    destruct (Nat.eqb lev 0 || Nat.eqb lev 2); auto.
  - exact Hf.
  - exact Hp.
  - unfold getSizeInPixels. cbn. fold size.
    destruct (Nat.eqb lev 0 || Nat.eqb lev 2); assumption.
Qed.

Lemma selectRenderables_never_ends_witness :
  selectRenderables 1000 level0Tile zoomedView = OutOfFuel.
Proof.
  apply (selectRenderables_never_ends zoomedView originCell 1000 10 0);
    try reflexivity.
  right. reflexivity.
Defined.

(* ------------------------------------------------------------------ *)
(** ** Labels of the layer *)

(** X14: with an angle format other than degrees-minutes-seconds and
    degrees-minutes (so also with decimal degrees), [addLabel] throws for
    every request, and so does forwarding any non-empty list of created
    labels: no label is ever added. *)
Theorem addLabel_other_formats_throw {W : WorldWind} (this : GraticuleLayer.t) :
  GraticuleLayer.angleFormat this <> GraticuleLayer.dmsAngleFormat ->
  GraticuleLayer.angleFormat this <> GraticuleLayer.dmAngleFormat ->
  (forall value labelType graticuleLevel resolution labelOffset,
     GraticuleLayer.addLabel this value labelType graticuleLevel resolution labelOffset
     = Throw (ReferenceError "label")) /\
  (forall label labels,
     GraticuleLayer.addCreatedLabels this (label :: labels)
     = Throw (ReferenceError "label")).
Proof.
  intros Hdms Hdm.
  assert (forall value labelType graticuleLevel resolution labelOffset,
            GraticuleLayer.addLabel this value labelType graticuleLevel resolution labelOffset
            = Throw (ReferenceError "label")) as H.
  { intros. unfold GraticuleLayer.addLabel, GraticuleLayer.makeAngleLabel.
    apply String.eqb_neq in Hdms, Hdm. rewrite Hdms, Hdm. reflexivity. }
  split; [exact H|].
  intros label labels. cbn [GraticuleLayer.addCreatedLabels]. rewrite H. reflexivity.
Qed.

Lemma addLabel_other_formats_throw_witness :
  GraticuleLayer.addCreatedLabels decimalLayer [latitudeRequest]
  = Throw (ReferenceError "label").
Proof.
  destruct (addLabel_other_formats_throw decimalLayer) as [_ H];
    [discriminate | discriminate | apply H].
Defined.

(** X15: forwarding created labels to [addLabel] never adds a text or
    records a value: when it returns, the layer is as it was and no label of
    the list was a latitude or longitude label. *)
Theorem addCreatedLabels_returns_unchanged {W : WorldWind} (this this' : GraticuleLayer.t)
    (labels : list CreatedLabel) :
  GraticuleLayer.addCreatedLabels this labels = Ok this' ->
  this' = this /\
  Forall (fun label => clLabelType label <> GridElement.typeLatitudeLabel /\
                       clLabelType label <> GridElement.typeLongitudeLabel) labels.
Proof.
  revert this. induction labels as [|label labels IH]; intros this;
    cbn [GraticuleLayer.addCreatedLabels].
  - intros [= <-]. split; [reflexivity | constructor].
  - destruct (GraticuleLayer.addLabel this _ _ _ _ _) as [next| |] eqn:E;
      cbn [bind]; try discriminate.
    apply addLabel_Ok in E as (-> & Nlat & Nlon).
    intros H. destruct (IH this H) as [-> F].
    split; [reflexivity|]. constructor; [split; assumption | exact F].
Qed.

Lemma addCreatedLabels_returns_unchanged_witness :
  GraticuleLayer.addCreatedLabels clearedLayer [gridZoneRequest; gridZoneRequest]
  = Ok clearedLayer.
Proof.
  destruct (GraticuleLayer.addCreatedLabels clearedLayer [gridZoneRequest; gridZoneRequest])
    as [layer| |] eqn:E.
  - rewrite (proj1 (addCreatedLabels_returns_unchanged clearedLayer layer _ E)). reflexivity.
  - vm_compute in E. discriminate E.
  - vm_compute in E. discriminate E.
Defined.

(* ------------------------------------------------------------------ *)
(** ** Rendering parameters by key *)

Lemma NamedParams_get_set (m : NamedParams.t) (key : string)
    (value : GraticuleRenderingParams.t) :
  NamedParams.get (NamedParams.set m key value) key = Some value /\
  (forall other, other <> key ->
     NamedParams.get (NamedParams.set m key value) other = NamedParams.get m other).
Proof.
  induction m as [|[k v] m [IH1 IH2]]; cbn [NamedParams.set NamedParams.get].
  - rewrite String.eqb_refl. split; [reflexivity|].
    intros other N. apply not_eq_sym in N. apply String.eqb_neq in N. rewrite N. reflexivity.
  - destruct (String.eqb_spec k key) as [-> | Nk]; cbn [NamedParams.get].
    + rewrite String.eqb_refl. split; [reflexivity|].
      intros other N. apply not_eq_sym in N. apply String.eqb_neq in N. rewrite N.
      reflexivity.
    + apply String.eqb_neq in Nk. rewrite Nk. split; [exact IH1|].
      intros other N. rewrite (IH2 other N). reflexivity.
Qed.

(** X16: parameters set under a key are what [getRenderingParams] returns
    for that key, without changing the map again; what is returned for any
    other key that has parameters is not affected by the setting. *)
Theorem getRenderingParams_after_set {C : Colors} (m : NamedParams.t) (key : string)
    (value : GraticuleRenderingParams.t) :
  NamedParams.getRenderingParams (NamedParams.setRenderingParams m key value) key
  = (value, NamedParams.setRenderingParams m key value) /\
  (forall other found,
     other <> key ->
     NamedParams.get m other = Some found ->
     NamedParams.getRenderingParams (NamedParams.setRenderingParams m key value) other
     = (found, NamedParams.setRenderingParams m key value)).
Proof.
  unfold NamedParams.getRenderingParams, NamedParams.setRenderingParams.
  destruct (NamedParams_get_set m key value) as [H1 H2]. split.
  - rewrite H1. reflexivity.
  - intros other found N Hf. rewrite (H2 other N), Hf. reflexivity.
Qed.

(** X17: for a key without parameters, [getRenderingParams] returns the
    default parameters and stores them under the key: asking again returns
    the same and changes nothing, and the other keys keep what they had. *)
Theorem getRenderingParams_default {C : Colors} (m : NamedParams.t) (key : string) :
  NamedParams.get m key = None ->
  exists m',
    NamedParams.getRenderingParams m key = (GraticuleRenderingParams.new, m') /\
    NamedParams.getRenderingParams m' key = (GraticuleRenderingParams.new, m') /\
    (forall other, other <> key -> NamedParams.get m' other = NamedParams.get m other).
Proof.
  intros Hn. unfold NamedParams.getRenderingParams. rewrite Hn.
  destruct (NamedParams_get_set m key GraticuleRenderingParams.new) as [H1 H2].
  eexists. split; [reflexivity|]. split; [| exact H2].
  rewrite H1. reflexivity.
Qed.

Lemma getRenderingParams_default_witness :
  exists m',
    NamedParams.getRenderingParams [] "Graticule.Other" = (GraticuleRenderingParams.new, m') /\
    NamedParams.getRenderingParams m' "Graticule.Other" = (GraticuleRenderingParams.new, m').
Proof.
  destruct (getRenderingParams_default [] "Graticule.Other" eq_refl) as (m' & H1 & H2 & _).
  exists m'. split; assumption.
Defined.

(** X18: every graticule level that [getLevel] can return has rendering
    parameters once [initRenderingParams] has run: [getRenderingParams]
    finds them and leaves the map, which holds the six levels, as it is. *)
Theorem initRenderingParams_covers_levels {C : Colors} (resolution : float) (key : string) :
  getLevel resolution = Some key ->
  List.length (NamedParams.initRenderingParams []) = 6%nat /\
  exists renderingParams,
    NamedParams.get (NamedParams.initRenderingParams []) key = Some renderingParams /\
    NamedParams.getRenderingParams (NamedParams.initRenderingParams []) key
    = (renderingParams, NamedParams.initRenderingParams []).
Proof.
  unfold getLevel. intros H. split; [reflexivity|].
  repeat (match type of H with
          | (if ?c then _ else _) = _ => destruct c
          end);
    try discriminate; injection H as <-; eexists; split; reflexivity.
Qed.

Lemma initRenderingParams_covers_levels_witness :
  exists renderingParams,
    NamedParams.get (NamedParams.initRenderingParams [])
      LatLonGraticuleGridTile.graticuleLatLonLevel2 = Some renderingParams /\
    GraticuleRenderingParams.labelFont renderingParams
    = mkFont 12 None None (Some "bold") (Some "Arial") None.
Proof.
  destruct (initRenderingParams_covers_levels 0.5 LatLonGraticuleGridTile.graticuleLatLonLevel2
              eq_refl) as (_ & p & Hg & _).
  exists p. split; [exact Hg|].
  cbn in Hg. injection Hg as <-. reflexivity.
Defined.

(* ------------------------------------------------------------------ *)
(** ** Views without projection limits, and failures *)

Lemma selectTileElements_no_limits {W : WorldWind} (this : t) (dc : DrawContext)
    (graticuleLevel : option string) (labelOffset : Position) (ges : list GridElement.t) :
  projectionLimits (globe dc) = None ->
  selectTileElements this dc graticuleLevel labelOffset ges = Ok (mkSelection [] [] []).
Proof.
  intros Hn. induction ges as [|ge ges IH]; cbn [selectTileElements]; [reflexivity|].
  unfold GridElement.isInView at 1. rewrite Hn. cbn [andb]. exact IH.
Qed.

Lemma selectBoundingLines_no_limits {W : WorldWind} (this : t) (dc : DrawContext)
    (graticuleLevel : option string) (labelOffset : Position) (ges : list GridElement.t) :
  projectionLimits (globe dc) = None ->
  selectBoundingLines this dc graticuleLevel labelOffset ges = ([], []).
Proof.
  intros Hn. induction ges as [|ge ges IH]; cbn [selectBoundingLines]; [reflexivity|].
  rewrite IH. unfold GridElement.isInView. rewrite Hn. reflexivity.
Qed.

(** X19: when the globe has no projection limits, no element counts as in
    view: whatever the tile, a returning call of [selectRenderables] selects
    no line and creates no label. *)
Theorem selectRenderables_no_limits {W : WorldWind} (fuel : nat) (this : t)
    (dc : DrawContext) (sel : Selection) (this' : t) :
  projectionLimits (globe dc) = None ->
  selectRenderables fuel this dc = Ok (sel, this') ->
  sel = mkSelection [] [] [].
Proof.
  intros Hn H.
  apply selectRenderables_Ok in H as (ges & sel1 & _ & _ & _ & _ & H1 & ->).
  rewrite (selectTileElements_no_limits this dc _ _ ges Hn) in H1. injection H1 as <-.
  unfold boundingLines.
  rewrite (selectBoundingLines_no_limits this dc _ _ ges Hn).
  destruct (Nat.eqb (level this) 0); reflexivity.
Qed.

Lemma selectRenderables_no_limits_witness :
  exists this',
    selectRenderables 20 level0Tile unlimitedView = Ok (mkSelection [] [] [], this').
Proof.
  destruct (selectRenderables 20 level0Tile unlimitedView) as [[sel this']| |] eqn:E.
  - exists this'.
    rewrite (selectRenderables_no_limits 20 level0Tile unlimitedView sel this' eq_refl E).
    reflexivity.
  - vm_compute in E. discriminate E.
  - vm_compute in E. discriminate E.
Defined.





